(** * Todo REST views (rest/views.py): a shallow embedding and its properties

    The development follows [src/rest/rest/views.py]: the two view classes
    [TodoListView] (get, post) and [TodoDetailView] (put, delete), their
    [_format_todo] helper, and the collaborators they call (the pymongo
    collection, [bson.ObjectId], [datetime]).

    Conventions.
    - A Python [str] is a [string]; every character is read as a code point
      below 256, so [len] is [String.length].
    - A document is a [gmap string value] over the scalar BSON values the
      views handle.
    - Code that talks to the store runs in a state-and-exception monad over an
      arbitrary [Store]; [MemStore] is an in-memory collection with scheduled
      faults and concurrent deletions.
    - Calls to [logger] have no effect on a response and are left out. *)

From Stdlib Require Import ZArith NArith Ascii String List Lia DecimalString.
From stdpp Require Import base tactics option gmap strings list sorting.

Local Open Scope string_scope.
Local Open Scope N_scope.

(** ** Python strings *)

Module PyStr.

(** [str.isspace] on the code points below 256: TAB..CR, FS..US, SPACE,
    NEL (0x85) and NBSP (0xA0). *)
Definition isspace (c : ascii) : bool :=
  let n := N_of_ascii c in
  ((9 <=? n) && (n <=? 13)) || ((28 <=? n) && (n <=? 32))
  || (n =? 133) || (n =? 160).

Fixpoint lstrip (s : string) : string :=
  match s with
  | EmptyString => EmptyString
  | String c s' => if isspace c then lstrip s' else s
  end.

Fixpoint rstrip (s : string) : string :=
  match s with
  | EmptyString => EmptyString
  | String c s' =>
      match rstrip s' with
      | EmptyString => if isspace c then EmptyString else String c EmptyString
      | r => String c r
      end
  end.

(** [s.strip()] *)
Definition strip (s : string) : string := rstrip (lstrip s).

Fixpoint whitespace_only (s : string) : bool :=
  match s with
  | EmptyString => true
  | String c s' => isspace c && whitespace_only s'
  end.

(** [n * c] for a one-character string [c] *)
Fixpoint replicate_char (n : nat) (c : ascii) : string :=
  match n with
  | O => EmptyString
  | S n' => String c (replicate_char n' c)
  end.

(** Fixed-width positional numerals, as produced by [%0wd] and by
    [bytes.hex]. *)
Definition digit_char (d : N) : ascii :=
  ascii_of_N (if d <? 10 then 48 + d else 87 + d).

Fixpoint digits (base : N) (width : nat) (n : N) : string :=
  match width with
  | O => EmptyString
  | S w => digits base w (n / base) ++ String (digit_char (n mod base)) EmptyString
  end.

Definition digit_value (c : ascii) : option N :=
  let n := N_of_ascii c in
  if (48 <=? n) && (n <=? 57) then Some (n - 48)
  else if (97 <=? n) && (n <=? 102) then Some (n - 87)
  else if (65 <=? n) && (n <=? 70) then Some (n - 55)
  else None.

(** [Py_ISSPACE]: the ASCII whitespace [bytes.fromhex] skips. *)
Definition is_ascii_space (c : ascii) : bool :=
  let n := N_of_ascii c in
  ((9 <=? n) && (n <=? 13)) || (n =? 32).

(** [bytes.fromhex(s)], the bytes kept as the number they spell and their
    count: whitespace is skipped before each byte and at the end, and each
    byte is two hexadecimal digits next to each other. *)
Fixpoint fromhex_from (acc : N) (count : nat) (s : string) : option (N * nat) :=
  match s with
  | EmptyString => Some (acc, count)
  | String c s' =>
      if is_ascii_space c then fromhex_from acc count s'
      else
        match digit_value c, s' with
        | Some top, String c' s'' =>
            match digit_value c' with
            | Some bot =>
                fromhex_from (acc * 256 + (top * 16 + bot)) (S count) s''
            | None => None
            end
        | _, _ => None
        end
  end.

Definition fromhex (s : string) : option (N * nat) := fromhex_from 0 0 s.

End PyStr.

(** ** bson.ObjectId *)

(** An ObjectId holds the bytes it was built from: twelve when the driver
    generates it, as many as [bytes.fromhex] gave when it is built from a
    string. They are kept as the number they spell and their count. *)
Record ObjectId := mkObjectId { oid_int : N; oid_size : nat }.

Global Instance ObjectId_eq_dec : EqDecision ObjectId.
Proof. solve_decision. Defined.

(** The twelve-byte ObjectId that spells [n]. *)
Definition OID (n : N) : ObjectId := mkObjectId n 12.

Definition oid_modulus : N := 2 ^ 96.

(** [str(oid)]: two lowercase hexadecimal digits for each byte. *)
Definition ObjectId_str (o : ObjectId) : string :=
  PyStr.digits 16 (2 * oid_size o)
               (oid_int o mod 256 ^ N.of_nat (oid_size o)).

(** ** datetime.datetime (naive) *)

Record datetime := mkDatetime {
  year : N; month : N; day : N;
  hour : N; minute : N; second : N; microsecond : N
}.

Definition is_leap (y : N) : bool :=
  ((y mod 4 =? 0) && negb (y mod 100 =? 0)) || (y mod 400 =? 0).

Definition days_in_month (y m : N) : N :=
  if m =? 2 then (if is_leap y then 29 else 28)
  else if (m =? 4) || (m =? 6) || (m =? 9) || (m =? 11) then 30
  else 31.

(** The ranges the [datetime] constructor enforces. *)
Definition datetime_valid (d : datetime) : bool :=
  (1 <=? year d) && (year d <=? 9999)
  && (1 <=? month d) && (month d <=? 12)
  && (1 <=? day d) && (day d <=? days_in_month (year d) (month d))
  && (hour d <? 24) && (minute d <? 60) && (second d <? 60)
  && (microsecond d <? 1000000).

(** [d.isoformat(sep)]: the fraction is printed only when it is not zero. *)
Definition isoformat_sep (sep : ascii) (d : datetime) : string :=
  PyStr.digits 10 4 (year d) ++ "-" ++ PyStr.digits 10 2 (month d) ++ "-"
  ++ PyStr.digits 10 2 (day d) ++ String sep
     (PyStr.digits 10 2 (hour d) ++ ":" ++ PyStr.digits 10 2 (minute d) ++ ":"
      ++ PyStr.digits 10 2 (second d)
      ++ (if microsecond d =? 0 then ""
          else "." ++ PyStr.digits 10 6 (microsecond d))).

Definition isoformat (d : datetime) : string := isoformat_sep "T" d.

(** A reader for the strings [isoformat] writes: [w] digits, then the rest. *)
Fixpoint take_digits_from (base : N) (w : nat) (acc : N) (s : string)
  : option (N * string) :=
  match w with
  | O => Some (acc, s)
  | S w' =>
      match s with
      | EmptyString => None
      | String c s' =>
          match PyStr.digit_value c with
          | Some d => if d <? base
                      then take_digits_from base w' (acc * base + d) s'
                      else None
          | None => None
          end
      end
  end.

Definition take_digits (base : N) (w : nat) (s : string) : option (N * string) :=
  take_digits_from base w 0 s.

Definition expect_char (c : ascii) (s : string) : option string :=
  match s with
  | String c' s' => if Ascii.eqb c c' then Some s' else None
  | EmptyString => None
  end.

Definition skip_char (s : string) : option string :=
  match s with
  | String _ s' => Some s'
  | EmptyString => None
  end.

(** [datetime.fromisoformat] on the two shapes [isoformat] produces for a
    naive datetime: [YYYY-MM-DD?HH:MM:SS] and the same followed by
    [.ffffff]. It is the reading side of the round trip, and is not called
    by the views. *)
Definition fromisoformat (s : string) : option datetime :=
  '(y, s) ← take_digits 10 4 s;
  s ← expect_char "-" s;
  '(mo, s) ← take_digits 10 2 s;
  s ← expect_char "-" s;
  '(d, s) ← take_digits 10 2 s;
  s ← skip_char s;
  '(h, s) ← take_digits 10 2 s;
  s ← expect_char ":" s;
  '(mi, s) ← take_digits 10 2 s;
  s ← expect_char ":" s;
  '(sec, s) ← take_digits 10 2 s;
  '(us, s) ← match s with
             | EmptyString => Some (0, EmptyString)
             | _ => s ← expect_char "." s; take_digits 10 6 s
             end;
  match s with
  | EmptyString =>
      let dt := mkDatetime y mo d h mi sec us in
      if datetime_valid dt then Some dt else None
  | _ => None
  end.

(** ** Values and documents *)

Inductive value :=
| VNone
| VBool (b : bool)
| VInt (z : Z)
| VStr (s : string)
| VObjectId (o : ObjectId)
| VDatetime (d : datetime).

Abbreviation doc := (gmap string value).

Definition type_name (v : value) : string :=
  match v with
  | VNone => "NoneType"
  | VBool _ => "bool"
  | VInt _ => "int"
  | VStr _ => "str"
  | VObjectId _ => "ObjectId"
  | VDatetime _ => "datetime.datetime"
  end.

(** [str(v)] *)
Definition py_str (v : value) : string :=
  match v with
  | VNone => "None"
  | VBool true => "True"
  | VBool false => "False"
  | VInt z => NilZero.string_of_int (Z.to_int z)
  | VStr s => s
  | VObjectId o => ObjectId_str o
  | VDatetime d => isoformat_sep " " d
  end.

(** [not todo] for a mapping or [None] *)
Definition falsy (todo : option doc) : bool :=
  match todo with
  | None => true
  | Some t => (size t =? 0)%nat
  end.

(** ** Exceptions and the state-and-exception monad *)

Inductive exn_class :=
| ConnectionFailure
| OperationFailure
| OtherError (name : string).

(** Instances of [Exception]: a class and the message [str(e)] shows. *)
Record exn := mkExn { exn_class_of : exn_class; exn_msg : string }.

Inductive result (A : Type) :=
| Ok (a : A)
| Raise (e : exn).
Arguments Ok {A} a.
Arguments Raise {A} e.

Definition M (S A : Type) : Type := S → result A * S.

Definition ret {S A} (a : A) : M S A := λ s, (Ok a, s).
Definition raise {S A} (e : exn) : M S A := λ s, (Raise e, s).
Definition bind {S A B} (c : M S A) (k : A → M S B) : M S B :=
  λ s, match c s with
       | (Ok a, s') => k a s'
       | (Raise e, s') => (Raise e, s')
       end.
Definition lift {S A} (r : result A) : M S A := λ s, (r, s).

Notation "'let!' x ':=' c 'in' k" := (bind c (λ x, k))
  (at level 10, x name, c at level 100, k at level 200).

(** [except] clauses, tried in order. *)
Inductive except_clause :=
| ExceptConnectionFailure
| ExceptOperationFailure
| ExceptException.

Definition clause_matches (c : except_clause) (e : exn) : bool :=
  match c, exn_class_of e with
  | ExceptConnectionFailure, ConnectionFailure => true
  | ExceptOperationFailure, OperationFailure => true
  | ExceptException, _ => true
  | _, _ => false
  end.

Fixpoint dispatch {S A} (clauses : list (except_clause * (exn → M S A)))
    (e : exn) : M S A :=
  match clauses with
  | [] => raise e
  | (c, h) :: rest => if clause_matches c e then h e else dispatch rest e
  end.

Definition try_except {S A} (body : M S A)
    (clauses : list (except_clause * (exn → M S A))) : M S A :=
  λ s, match body s with
       | (Ok a, s') => (Ok a, s')
       | (Raise e, s') => dispatch clauses e s'
       end.

(** ** The collection, as the views use it *)

Class Store (S : Type) := {
  (** [list(collection.find().sort(key, direction))] *)
  find_sort : string → Z → M S (list doc);
  (** [collection.find_one({'_id': oid})] *)
  find_one : ObjectId → M S (option doc);
  (** [collection.insert_one(document).inserted_id] *)
  insert_one : doc → M S ObjectId;
  (** [collection.update_one({'_id': oid}, {'$set': fields}).matched_count] *)
  update_one_set : ObjectId → doc → M S N;
  (** [collection.delete_one({'_id': oid}).deleted_count] *)
  delete_one : ObjectId → M S N
}.

(** [ObjectId(s)] for a [str] argument: a string of twenty-four characters
    that [bytes.fromhex] accepts, whatever number of bytes that gives, or
    [InvalidId]. *)
Definition ObjectId_new (s : string) : result ObjectId :=
  let invalid :=
    Raise (mkExn (OtherError "InvalidId")
             ("'" ++ s ++ "' is not a valid ObjectId, it must be a 12-byte input or a 24-character hex string")) in
  if (String.length s =? 24)%nat then
    match PyStr.fromhex s with
    | Some (n, size) => Ok (mkObjectId n size)
    | None => invalid
    end
  else invalid.

(** ** Requests and responses *)

(** [request.data]: a mapping, or a parsed body of another shape. *)
Inductive request_data :=
| DataDict (d : doc)
| DataOther.

(** The four dictionaries the views hand to [Response]. *)
Inductive body :=
| SuccessList (data : list doc) (count : nat)
| SuccessItem (data : option doc) (message : string)
| SuccessMessage (message : string)
| Failure (error : string).

Definition success (b : body) : bool :=
  match b with
  | Failure _ => false
  | _ => true
  end.

Record Response := mkResponse { resp_body : body; status : N }.

Definition HTTP_200_OK : N := 200.
Definition HTTP_201_CREATED : N := 201.
Definition HTTP_400_BAD_REQUEST : N := 400.
Definition HTTP_404_NOT_FOUND : N := 404.
Definition HTTP_500_INTERNAL_SERVER_ERROR : N := 500.
Definition HTTP_503_SERVICE_UNAVAILABLE : N := 503.

Definition MAX_DESCRIPTION_LENGTH : nat := 500.

Definition attribute_error (type attr : string) : exn :=
  mkExn (OtherError "AttributeError")
        ("'" ++ type ++ "' object has no attribute '" ++ attr ++ "'").

(** [request.data.get('description', '')] *)
Definition data_get_description (r : request_data) : result value :=
  match r with
  | DataDict d => Ok (default (VStr "") (d !! "description"))
  | DataOther => Raise (attribute_error "list" "get")
  end.

(** [v.strip()] *)
Definition strip_method (v : value) : result string :=
  match v with
  | VStr s => Ok (PyStr.strip s)
  | _ => Raise (attribute_error (type_name v) "strip")
  end.

Definition description_required : string :=
  "Description is required and cannot be empty.".
Definition description_too_long : string :=
  "Description cannot exceed "
  ++ NilZero.string_of_uint (Nat.to_uint MAX_DESCRIPTION_LENGTH)
  ++ " characters.".
Definition connection_failed : string :=
  "Database connection failed. Please try again later.".
Definition operation_failed : string :=
  "Database operation failed. Please try again.".

Definition bad_request (msg : string) : Response :=
  mkResponse (Failure msg) HTTP_400_BAD_REQUEST.

Definition failure {S} (error : string) (code : N) : M S Response :=
  ret (mkResponse (Failure error) code).

(** Dictionaries as heap objects, for the code that copies and then assigns
    to keys. *)
Module Heap.

Abbreviation loc := positive.
Abbreviation heap := (gmap positive (gmap string value)).

(** [dict(d)] allocates a new object holding the same items. *)
Definition dict_copy (h : heap) (d : doc) : heap * loc :=
  let l := fresh (dom h) in (<[l := d]> h, l).

(** [obj[k] = v] *)
Definition setitem (h : heap) (l : loc) (k : string) (v : value) : heap :=
  alter (λ d, <[k := v]> d) l h.

Definition getitem (h : heap) (l : loc) (k : string) : option value :=
  d ← h !! l; d !! k.

End Heap.

(** ** class TodoListView *)

Module TodoListView.

(** [_format_todo], as a function from the document to the new dictionary. *)
Definition _format_todo (todo : option doc) : option doc :=
  if falsy todo then None
  else
    match todo with
    | None => None
    | Some t =>
        let formatted := t in
        let formatted :=
          match formatted !! "_id" with
          | Some v => <["_id" := VStr (py_str v)]> formatted
          | None => formatted
          end in
        let formatted :=
          match formatted !! "created_at" with
          | Some (VDatetime d) => <["created_at" := VStr (isoformat d)]> formatted
          | _ => formatted
          end in
        Some formatted
    end.

(** [_format_todo], statement by statement on heap objects: [todo] is a
    reference (or [None]) and the result is a reference (or [None]). *)
Definition _format_todo_heap (h : Heap.heap) (todo : option Heap.loc)
  : Heap.heap * option Heap.loc :=
  if falsy (l ← todo; h !! l) then (h, None)
  else
    match l ← todo; h !! l with
    | None => (h, None)
    | Some t =>
        let '(h, formatted) := Heap.dict_copy h t in
        let h :=
          match Heap.getitem h formatted "_id" with
          | Some v => Heap.setitem h formatted "_id" (VStr (py_str v))
          | None => h
          end in
        let h :=
          match Heap.getitem h formatted "created_at" with
          | Some (VDatetime d) =>
              Heap.setitem h formatted "created_at" (VStr (isoformat d))
          | _ => h
          end in
        (h, Some formatted)
    end.

(** The body of the [for todo in todos_cursor] loop of [get]. *)
Definition get_step (todo : doc) : result doc :=
  match todo !! "_id" with
  | None => Raise (mkExn (OtherError "KeyError") "'_id'")
  | Some v =>
      let todo := <["_id" := VStr (py_str v)]> todo in
      let todo :=
        match todo !! "created_at" with
        | Some (VDatetime d) => <["created_at" := VStr (isoformat d)]> todo
        | _ => todo
        end in
      Ok todo
  end.

Fixpoint get_loop (todos_cursor : list doc) (todos : list doc)
  : result (list doc) :=
  match todos_cursor with
  | [] => Ok todos
  | todo :: rest =>
      match get_step todo with
      | Ok todo => get_loop rest (todos ++ [todo])
      | Raise e => Raise e
      end
  end.

Section views.
Context {S : Type} `{!Store S}.

Definition get_try : M S Response :=
  let! todos_cursor := find_sort "created_at" (-1)%Z in
  let! todos := lift (get_loop todos_cursor []) in
  ret (mkResponse (SuccessList todos (length todos)) HTTP_200_OK).

Definition get_except : list (except_clause * (exn → M S Response)) :=
  [ (ExceptConnectionFailure,
     λ _, failure connection_failed HTTP_503_SERVICE_UNAVAILABLE);
    (ExceptException,
     λ _, failure "An unexpected error occurred while retrieving todos."
                  HTTP_500_INTERNAL_SERVER_ERROR) ].

Definition get : M S Response := try_except get_try get_except.

(** [now] is the value of [datetime.utcnow()]. *)
Definition post_try (data : request_data) (now : datetime) : M S Response :=
  let! raw := lift (data_get_description data) in
  let! description := lift (strip_method raw) in
  if (String.length description =? 0)%nat then
    failure description_required HTTP_400_BAD_REQUEST
  else if (MAX_DESCRIPTION_LENGTH <? String.length description)%nat then
    failure description_too_long HTTP_400_BAD_REQUEST
  else
    let todo_doc : doc :=
      {[ "description" := VStr description;
         "created_at" := VDatetime now;
         "completed" := VBool false ]} in
    let! inserted_id := insert_one todo_doc in
    let! created_todo := find_one inserted_id in
    let formatted_todo := _format_todo created_todo in
    ret (mkResponse (SuccessItem formatted_todo "Todo created successfully")
                    HTTP_201_CREATED).

Definition post_except : list (except_clause * (exn → M S Response)) :=
  [ (ExceptConnectionFailure,
     λ _, failure connection_failed HTTP_503_SERVICE_UNAVAILABLE);
    (ExceptOperationFailure,
     λ _, failure operation_failed HTTP_500_INTERNAL_SERVER_ERROR);
    (ExceptException,
     λ _, failure "An unexpected error occurred while creating the todo."
                  HTTP_500_INTERNAL_SERVER_ERROR) ].

Definition post (data : request_data) (now : datetime) : M S Response :=
  try_except (post_try data now) post_except.

End views.
End TodoListView.

(** ** class TodoDetailView *)

Module TodoDetailView.

Definition _format_todo (todo : option doc) : option doc :=
  if falsy todo then None
  else
    match todo with
    | None => None
    | Some t =>
        let formatted := t in
        let formatted :=
          match formatted !! "_id" with
          | Some v => <["_id" := VStr (py_str v)]> formatted
          | None => formatted
          end in
        let formatted :=
          match formatted !! "created_at" with
          | Some (VDatetime d) => <["created_at" := VStr (isoformat d)]> formatted
          | _ => formatted
          end in
        Some formatted
    end.

Section views.
Context {S : Type} `{!Store S}.

Definition put_try (data : request_data) (todo_id : string) : M S Response :=
  match ObjectId_new todo_id with
  | Raise _ => failure "Invalid todo ID format." HTTP_400_BAD_REQUEST
  | Ok object_id =>
      let! raw := lift (data_get_description data) in
      let! description := lift (strip_method raw) in
      if (String.length description =? 0)%nat then
        failure description_required HTTP_400_BAD_REQUEST
      else if (MAX_DESCRIPTION_LENGTH <? String.length description)%nat then
        failure description_too_long HTTP_400_BAD_REQUEST
      else
        let! existing_todo := find_one object_id in
        if falsy existing_todo then
          failure "Todo not found." HTTP_404_NOT_FOUND
        else
          let! update_result :=
            update_one_set object_id {[ "description" := VStr description ]} in
          let! updated_todo := find_one object_id in
          let formatted_todo := _format_todo updated_todo in
          ret (mkResponse (SuccessItem formatted_todo "Todo updated successfully")
                          HTTP_200_OK)
  end.

Definition put_except : list (except_clause * (exn → M S Response)) :=
  [ (ExceptConnectionFailure,
     λ _, failure connection_failed HTTP_503_SERVICE_UNAVAILABLE);
    (ExceptOperationFailure,
     λ _, failure operation_failed HTTP_500_INTERNAL_SERVER_ERROR);
    (ExceptException,
     λ _, failure "An unexpected error occurred while updating the todo."
                  HTTP_500_INTERNAL_SERVER_ERROR) ].

Definition put (data : request_data) (todo_id : string) : M S Response :=
  try_except (put_try data todo_id) put_except.

Definition delete_try (todo_id : string) : M S Response :=
  match ObjectId_new todo_id with
  | Raise _ => failure "Invalid todo ID format." HTTP_400_BAD_REQUEST
  | Ok object_id =>
      let! existing_todo := find_one object_id in
      if falsy existing_todo then
        failure "Todo not found." HTTP_404_NOT_FOUND
      else
        let! deleted_count := delete_one object_id in
        if deleted_count =? 0 then
          failure "Failed to delete todo." HTTP_500_INTERNAL_SERVER_ERROR
        else
          ret (mkResponse (SuccessMessage "Todo deleted successfully")
                          HTTP_200_OK)
  end.

Definition delete_except : list (except_clause * (exn → M S Response)) :=
  [ (ExceptConnectionFailure,
     λ _, failure connection_failed HTTP_503_SERVICE_UNAVAILABLE);
    (ExceptOperationFailure,
     λ _, failure operation_failed HTTP_500_INTERNAL_SERVER_ERROR);
    (ExceptException,
     λ _, failure "An unexpected error occurred while deleting the todo."
                  HTTP_500_INTERNAL_SERVER_ERROR) ].

Definition delete (todo_id : string) : M S Response :=
  try_except (delete_try todo_id) delete_except.

End views.
End TodoDetailView.

(** ** An in-memory collection

    The collection is the list of its documents in insertion order. Before
    each operation the environment takes its turn: nothing, a driver fault
    (the operation raises), or another client deleting a document. *)

Module MemStore.

Inductive interference :=
| Quiet
| Fault (e : exn)
| ConcurrentDelete (o : ObjectId).

Record state := mkState {
  docs : list doc;
  next_oid : N;
  pending : list interference
}.

Definition doc_id (d : doc) : option ObjectId :=
  match d !! "_id" with
  | Some (VObjectId o) => Some o
  | _ => None
  end.

Definition has_id (o : ObjectId) (d : doc) : bool :=
  bool_decide (doc_id d = Some o).

(** BSON keeps datetimes in milliseconds. *)
Definition bson_datetime (d : datetime) : datetime :=
  mkDatetime (year d) (month d) (day d) (hour d) (minute d) (second d)
             (microsecond d / 1000 * 1000).

Definition bson_value (v : value) : value :=
  match v with
  | VDatetime d => VDatetime (bson_datetime d)
  | _ => v
  end.

(** The first document matching [o] is replaced by [f] of it; the count of
    matched documents is returned with the new list. *)
Fixpoint update_first (o : ObjectId) (f : doc → doc) (l : list doc)
  : list doc * N :=
  match l with
  | [] => ([], 0)
  | d :: l' =>
      if has_id o d then (f d :: l', 1)
      else let '(l'', n) := update_first o f l' in (d :: l'', n)
  end.

Fixpoint remove_first (o : ObjectId) (l : list doc) : list doc * N :=
  match l with
  | [] => ([], 0)
  | d :: l' =>
      if has_id o d then (l', 1)
      else let '(l'', n) := remove_first o l' in (d :: l'', n)
  end.

(** The environment's turn, then the operation. *)
Definition arrive {A} (op : M state A) : M state A :=
  λ s, match pending s with
       | [] => op s
       | Quiet :: rest => op (mkState (docs s) (next_oid s) rest)
       | Fault e :: rest => (Raise e, mkState (docs s) (next_oid s) rest)
       | ConcurrentDelete o :: rest =>
           op (mkState (fst (remove_first o (docs s))) (next_oid s) rest)
       end.

(** The BSON comparison order on the values of a sort key; a missing field
    sorts as null. *)
Definition bson_rank (v : option value) : N :=
  match v with
  | None | Some VNone => 1
  | Some (VInt _) => 2
  | Some (VStr _) => 3
  | Some (VObjectId _) => 4
  | Some (VBool _) => 5
  | Some (VDatetime _) => 6
  end.

Definition datetime_fields (d : datetime) : list N :=
  [year d; month d; day d; hour d; minute d; second d; microsecond d].

Fixpoint lex_leb (a b : list N) : bool :=
  match a, b with
  | [], _ => true
  | _ :: _, [] => false
  | x :: a', y :: b' => (x <? y) || ((x =? y) && lex_leb a' b')
  end.

Definition bson_leb (a b : option value) : bool :=
  if bson_rank a <? bson_rank b then true
  else if bson_rank b <? bson_rank a then false
  else
    match a, b with
    | Some (VInt x), Some (VInt y) => (x <=? y)%Z
    | Some (VStr x), Some (VStr y) => String.leb x y
    | Some (VObjectId x), Some (VObjectId y) => oid_int x <=? oid_int y
    | Some (VBool x), Some (VBool y) => implb x y
    | Some (VDatetime x), Some (VDatetime y) =>
        lex_leb (datetime_fields x) (datetime_fields y)
    | _, _ => true
    end.

(** [d1] may come before [d2] under [sort(key, direction)]. *)
Definition sort_order (key : string) (direction : Z) (d1 d2 : doc) : Prop :=
  if (direction <? 0)%Z then bson_leb (d2 !! key) (d1 !! key)
  else bson_leb (d1 !! key) (d2 !! key).

Global Instance sort_order_dec key direction d1 d2 :
  Decision (sort_order key direction d1 d2).
Proof. unfold sort_order. destruct (direction <? 0)%Z; apply _. Defined.

Definition mem_find_sort (key : string) (direction : Z) : M state (list doc) :=
  arrive (λ s, (Ok (merge_sort (sort_order key direction) (docs s)), s)).

Definition mem_find_one (o : ObjectId) : M state (option doc) :=
  arrive (λ s, (Ok (List.find (has_id o) (docs s)), s)).

(** The views insert documents without [_id]; the driver adds a new one. A
    key already in the collection is a duplicate-key [OperationFailure]. *)
Definition mem_insert_one (d : doc) : M state ObjectId :=
  arrive (λ s,
    let oid := OID (next_oid s) in
    let stored := <["_id" := VObjectId oid]> (bson_value <$> d) in
    if existsb (has_id oid) (docs s) then
      (Raise (mkExn OperationFailure "E11000 duplicate key error collection"),
       mkState (docs s) (next_oid s + 1) (pending s))
    else
      (Ok oid, mkState (docs s ++ [stored]) (next_oid s + 1) (pending s))).

Definition mem_update_one_set (o : ObjectId) (fields : doc) : M state N :=
  arrive (λ s,
    let '(l, n) := update_first o (λ d, (bson_value <$> fields) ∪ d) (docs s) in
    (Ok n, mkState l (next_oid s) (pending s))).

Definition mem_delete_one (o : ObjectId) : M state N :=
  arrive (λ s,
    let '(l, n) := remove_first o (docs s) in
    (Ok n, mkState l (next_oid s) (pending s))).

Global Instance mem_store : Store state := {|
  find_sort := mem_find_sort;
  find_one := mem_find_one;
  insert_one := mem_insert_one;
  update_one_set := mem_update_one_set;
  delete_one := mem_delete_one
|}.

(** Every document carries an ObjectId below the generator's next value, and
    no two documents share one. *)
Definition id_below (n : N) (d : doc) : Prop :=
  match doc_id d with
  | Some o => oid_int o < n
  | None => False
  end.

Definition wf (s : state) : Prop :=
  Forall (id_below (next_oid s)) (docs s) ∧ NoDup (doc_id <$> docs s).

(** No driver fault and no other client during the request. *)
Definition quiet (s : state) : Prop := pending s = [].

End MemStore.

(** ** The data model's constraint on a stored description *)

Definition description_ok (s : string) : Prop :=
  s ≠ "" ∧ PyStr.whitespace_only s = false
  ∧ (String.length (PyStr.strip s) ≤ MAX_DESCRIPTION_LENGTH)%nat.

Definition doc_ok (d : doc) : Prop :=
  ∃ s, d !! "description" = Some (VStr s) ∧ description_ok s.

Definition collection_ok (s : MemStore.state) : Prop :=
  Forall doc_ok (MemStore.docs s).

(** ** Vocabulary for the statements *)

(** [c] keeps [P] true of the state, whatever it returns or raises. *)
Definition preserves {S A} (P : S → Prop) (c : M S A) : Prop :=
  ∀ s, P s → P (c s).2.

(** Whatever [c] returns normally satisfies [Q]. *)
Definition returns {S A} (Q : A → Prop) (c : M S A) : Prop :=
  ∀ s a s', c s = (Ok a, s') → Q a.

(** [c] always returns normally. *)
Definition never_raises {S A} (c : M S A) : Prop :=
  ∀ s, ∃ a s', c s = (Ok a, s').

(** The four requests of the HTTP surface. *)
Inductive operation :=
| OpList
| OpCreate (data : request_data) (now : datetime)
| OpUpdate (data : request_data) (todo_id : string)
| OpDelete (todo_id : string).

Section run.
Context {S : Type} `{!Store S}.

(** The [try] block of the view that serves [op]. *)
Definition run_try (op : operation) : M S Response :=
  match op with
  | OpList => TodoListView.get_try
  | OpCreate data now => TodoListView.post_try data now
  | OpUpdate data todo_id => TodoDetailView.put_try data todo_id
  | OpDelete todo_id => TodoDetailView.delete_try todo_id
  end.

(** The view that serves [op]. *)
Definition run (op : operation) : M S Response :=
  match op with
  | OpList => TodoListView.get
  | OpCreate data now => TodoListView.post data now
  | OpUpdate data todo_id => TodoDetailView.put data todo_id
  | OpDelete todo_id => TodoDetailView.delete todo_id
  end.

End run.

(** The error taxonomy: the status and the message for a class of
    exception, which is all of the exception they look at. *)
Definition failure_status (c : exn_class) : N :=
  match c with
  | ConnectionFailure => HTTP_503_SERVICE_UNAVAILABLE
  | _ => HTTP_500_INTERNAL_SERVER_ERROR
  end.

Definition unexpected_message (op : operation) : string :=
  "An unexpected error occurred while " ++
  match op with
  | OpList => "retrieving todos."
  | OpCreate _ _ => "creating the todo."
  | OpUpdate _ _ => "updating the todo."
  | OpDelete _ => "deleting the todo."
  end.

Definition failure_message (op : operation) (c : exn_class) : string :=
  match c, op with
  | ConnectionFailure, _ => connection_failed
  | OperationFailure, OpList => unexpected_message op
  | OperationFailure, _ => operation_failed
  | OtherError _, _ => unexpected_message op
  end.

(** A response is a success with 200 or 201, or the error envelope with one
    of the four error statuses. *)
Definition envelope_ok (r : Response) : Prop :=
  (success (resp_body r) = true ∧ status r ∈ [HTTP_200_OK; HTTP_201_CREATED])
  ∨ (∃ msg, resp_body r = Failure msg
       ∧ status r ∈ [HTTP_400_BAD_REQUEST; HTTP_404_NOT_FOUND;
                     HTTP_500_INTERNAL_SERVER_ERROR;
                     HTTP_503_SERVICE_UNAVAILABLE]).

(** The document the collection holds for a todo created at [now] with the
    given (trimmed) description, under the id the driver gave it. *)
Definition stored_todo (description : string) (now : datetime) (o : ObjectId)
  : doc :=
  <["_id" := VObjectId o]>
    (MemStore.bson_value <$>
       ({[ "description" := VStr description;
           "created_at" := VDatetime now;
           "completed" := VBool false ]} : doc)).

(** Requests served one after the other. *)
Fixpoint serve {S : Type} `{!Store S} (ops : list operation) (s : S) : S :=
  match ops with
  | [] => s
  | op :: rest => serve rest (run op s).2
  end.

(** ** Sample data *)

Module Sample.

Definition now : datetime := mkDatetime 2024 5 1 10 20 30 123456.

Definition milk_id : string := "000000000000000000000001".

Definition empty : MemStore.state := MemStore.mkState [] 1 [].

(** The collection after [POST {description: " buy milk "}] on [empty]. *)
Definition milk : MemStore.state :=
  MemStore.mkState [stored_todo "buy milk" now (OID 1)] 2 [].

(** [milk], with another client deleting the todo just before the second
    store operation of the request. *)
Definition milk_raced : MemStore.state :=
  MemStore.mkState [stored_todo "buy milk" now (OID 1)] 2
    [MemStore.Quiet; MemStore.ConcurrentDelete (OID 1)].

(** Two todos, the older one inserted first. *)
Definition milk_and_eggs : MemStore.state :=
  MemStore.mkState
    [stored_todo "buy milk" now (OID 1);
     stored_todo "buy eggs" (mkDatetime 2024 5 1 11 0 0 0) (OID 2)] 3 [].

(** [milk], with the connection failing at the first store operation. *)
Definition milk_down : MemStore.state :=
  MemStore.mkState [stored_todo "buy milk" now (OID 1)] 2
    [MemStore.Fault (mkExn ConnectionFailure "localhost:27017: timed out")].

Definition body_of (description : value) : request_data :=
  DataDict {[ "description" := description ]}.

End Sample.

(** ** More sample data *)

Module Scenario.

(** A collection holding a document that has no [_id]. *)
Definition no_id : MemStore.state :=
  MemStore.mkState [ {[ "description" := VStr "orphan" ]} ] 1 [].

(** [Sample.empty], with another client deleting the new todo between the
    insert and the re-read of a create. *)
Definition empty_raced : MemStore.state :=
  MemStore.mkState [] 1 [MemStore.Quiet; MemStore.ConcurrentDelete (OID 1)].

Definition timed_out : exn := mkExn ConnectionFailure "localhost:27017: timed out".

(** [Sample.empty], with the connection failing at the re-read of a create. *)
Definition empty_reread_down : MemStore.state :=
  MemStore.mkState [] 1 [MemStore.Quiet; MemStore.Fault timed_out].

(** [Sample.milk], with the connection failing at the re-read of an update. *)
Definition milk_reread_down : MemStore.state :=
  MemStore.mkState [stored_todo "buy milk" Sample.now (OID 1)] 2
    [MemStore.Quiet; MemStore.Quiet; MemStore.Fault timed_out].

(** What each view may answer: the status and the shape of the body. *)
Definition get_shape (r : Response) : Prop :=
  (status r = HTTP_200_OK
   ∧ ∃ todos, resp_body r = SuccessList todos (length todos))
  ∨ (∃ msg, resp_body r = Failure msg
       ∧ status r ∈ [HTTP_500_INTERNAL_SERVER_ERROR;
                     HTTP_503_SERVICE_UNAVAILABLE]).

Definition post_shape (r : Response) : Prop :=
  (status r = HTTP_201_CREATED
   ∧ ∃ todo, resp_body r = SuccessItem todo "Todo created successfully")
  ∨ (∃ msg, resp_body r = Failure msg
       ∧ status r ∈ [HTTP_400_BAD_REQUEST; HTTP_500_INTERNAL_SERVER_ERROR;
                     HTTP_503_SERVICE_UNAVAILABLE]).

Definition put_shape (r : Response) : Prop :=
  (status r = HTTP_200_OK
   ∧ ∃ todo, resp_body r = SuccessItem todo "Todo updated successfully")
  ∨ (∃ msg, resp_body r = Failure msg
       ∧ status r ∈ [HTTP_400_BAD_REQUEST; HTTP_404_NOT_FOUND;
                     HTTP_500_INTERNAL_SERVER_ERROR;
                     HTTP_503_SERVICE_UNAVAILABLE]).

Definition delete_shape (r : Response) : Prop :=
  (status r = HTTP_200_OK
   ∧ resp_body r = SuccessMessage "Todo deleted successfully")
  ∨ (∃ msg, resp_body r = Failure msg
       ∧ status r ∈ [HTTP_400_BAD_REQUEST; HTTP_404_NOT_FOUND;
                     HTTP_500_INTERNAL_SERVER_ERROR;
                     HTTP_503_SERVICE_UNAVAILABLE]).

End Scenario.

(** * Properties *)

(** ** Stripping *)

Section strip_facts.
Import PyStr.

Lemma lstrip_head s :
  lstrip s = "" ∨ ∃ c r, lstrip s = String c r ∧ isspace c = false.
Proof.
  induction s as [|c s IH]; simpl; [by left|].
  destruct (isspace c) eqn:Hc; [done|]. right. by exists c, s.
Qed.

Lemma rstrip_empty s : rstrip s = "" ↔ whitespace_only s = true.
Proof.
  induction s as [|c s IH]; simpl; [done|].
  destruct (rstrip s) eqn:Hr.
  - destruct (isspace c); simpl; [|by split].
    split; intros _; [by apply IH|done].
  - split; [done|]. intros [_ Hw]%andb_prop. by apply IH in Hw.
Qed.

Lemma rstrip_cons_nonspace c s :
  isspace c = false → ∃ r, rstrip (String c s) = String c r.
Proof.
  intros Hc. simpl. rewrite Hc. destruct (rstrip s); eauto.
Qed.

Lemma rstrip_idem s : rstrip (rstrip s) = rstrip s.
Proof.
  induction s as [|c s IH]; simpl; [done|].
  destruct (rstrip s) as [|c' r] eqn:Hr.
  - destruct (isspace c) eqn:Hc; simpl; [done|]. by rewrite Hc.
  - simpl in *. by rewrite IH.
Qed.

Lemma lstrip_nonspace c s : isspace c = false → lstrip (String c s) = String c s.
Proof. intros Hc. simpl. by rewrite Hc. Qed.

Lemma strip_idem s : strip (strip s) = strip s.
Proof.
  unfold strip. destruct (lstrip_head s) as [->|(c & r & -> & Hc)]; [done|].
  destruct (rstrip_cons_nonspace c r Hc) as [r' Hr']. rewrite Hr'.
  rewrite (lstrip_nonspace _ _ Hc), <-Hr'. apply rstrip_idem.
Qed.

Lemma strip_not_whitespace s : strip s ≠ "" → whitespace_only (strip s) = false.
Proof.
  unfold strip. destruct (lstrip_head s) as [->|(c & r & -> & Hc)]; [done|].
  intros _. destruct (rstrip_cons_nonspace c r Hc) as [r' ->]. simpl.
  by rewrite Hc.
Qed.

Lemma length_zero_empty s : (String.length s =? 0)%nat = true ↔ s = "".
Proof. destruct s; simpl; split; done. Qed.

Lemma length_replicate_char n c : String.length (replicate_char n c) = n.
Proof. induction n; simpl; congruence. Qed.

End strip_facts.

(** A description that passes the two checks of [post] and [put] meets the
    data model's constraint once trimmed. *)
Lemma accepted_description_ok raw :
  (String.length (PyStr.strip raw) =? 0)%nat = false →
  (MAX_DESCRIPTION_LENGTH <? String.length (PyStr.strip raw))%nat = false →
  description_ok (PyStr.strip raw).
Proof.
  intros Hne Hlen.
  assert (PyStr.strip raw ≠ "") as Hs.
  { intros Heq. rewrite Heq in Hne. done. }
  split_and!; [done|by apply strip_not_whitespace|].
  rewrite strip_idem. by apply Nat.ltb_ge in Hlen.
Qed.

(** ** Fixed-width numerals *)

Section digit_facts.
Import PyStr.

Lemma string_app_assoc (a b c : string) : (a ++ b) ++ c = a ++ (b ++ c).
Proof.
  induction a as [|x a IH]; [done|].
  change (String x ((a ++ b) ++ c) = String x (a ++ (b ++ c))). by rewrite IH.
Qed.

Lemma string_app_nil (a : string) : a ++ "" = a.
Proof.
  induction a as [|x a IH]; [done|].
  change (String x (a ++ "") = String x a). by rewrite IH.
Qed.

Lemma digit_value_char d : d < 16 → digit_value (digit_char d) = Some d.
Proof.
  intros Hd.
  assert (d ∈ [0;1;2;3;4;5;6;7;8;9;10;11;12;13;14;15]) as Hin.
  { rewrite !elem_of_cons. lia. }
  rewrite !elem_of_cons in Hin.
  repeat (destruct Hin as [->|Hin]; [reflexivity|]). by apply elem_of_nil in Hin.
Qed.

Lemma take_digits_from_add base w1 w2 acc s :
  take_digits_from base (w1 + w2) acc s =
  '(a, s') ← take_digits_from base w1 acc s; take_digits_from base w2 a s'.
Proof.
  revert acc s. induction w1 as [|w1 IH]; intros acc s; simpl; [done|].
  destruct s as [|c s]; [done|].
  destruct (digit_value c) as [d|]; [|done].
  destruct (d <? base); [|done]. apply IH.
Qed.

Lemma take_digits_from_digits base w acc n rest :
  1 < base → base ≤ 16 → n < base ^ N.of_nat w →
  take_digits_from base w acc (digits base w n ++ rest)
  = Some (acc * base ^ N.of_nat w + n, rest).
Proof.
  intros Hb1 Hb16. revert n rest.
  induction w as [|w IH]; intros n rest Hn.
  - simpl in *. do 2 f_equal. lia.
  - replace (S w) with (w + 1)%nat by lia.
    rewrite take_digits_from_add. replace (w + 1)%nat with (S w) by lia.
    cbn [digits]. rewrite string_app_assoc.
    assert (n / base < base ^ N.of_nat w) as Hq.
    { apply N.Div0.div_lt_upper_bound.
      rewrite Nat2N.inj_succ, N.pow_succ_r' in Hn. lia. }
    rewrite (IH _ _ Hq). simpl.
    assert (n mod base < base) as Hm by (apply N.mod_lt; lia).
    rewrite digit_value_char by lia.
    apply N.ltb_lt in Hm as ->. do 2 f_equal.
    rewrite Nat2N.inj_succ, N.pow_succ_r'.
    pose proof (N.div_mod n base ltac:(lia)). lia.
Qed.

Lemma take_digits_digits base w n rest :
  1 < base → base ≤ 16 → n < base ^ N.of_nat w →
  take_digits base w (digits base w n ++ rest) = Some (n, rest).
Proof.
  intros. unfold take_digits. rewrite take_digits_from_digits by done.
  by rewrite N.mul_0_l.
Qed.

End digit_facts.

(** ** Timestamps *)

Lemma string_app_cons c (s t : string) : String c s ++ t = String c (s ++ t).
Proof. reflexivity. Qed.

Lemma string_app_nil_l (t : string) : "" ++ t = t.
Proof. reflexivity. Qed.

Lemma days_in_month_le y m : days_in_month y m ≤ 31.
Proof.
  unfold days_in_month.
  repeat match goal with |- context [if ?b then _ else _] => destruct b end; lia.
Qed.

Lemma datetime_valid_bounds d :
  datetime_valid d = true →
  year d < 10 ^ 4 ∧ month d < 10 ^ 2 ∧ day d < 10 ^ 2 ∧ hour d < 10 ^ 2
  ∧ minute d < 10 ^ 2 ∧ second d < 10 ^ 2 ∧ microsecond d < 10 ^ 6.
Proof.
  unfold datetime_valid. rewrite !andb_true_iff, !N.leb_le, !N.ltb_lt.
  pose proof (days_in_month_le (year d) (month d)).
  change (10 ^ 4) with 10000. change (10 ^ 2) with 100.
  change (10 ^ 6) with 1000000. lia.
Qed.

(** Reading back what [isoformat] wrote gives the datetime it was given. *)
Lemma fromisoformat_isoformat d :
  datetime_valid d = true → fromisoformat (isoformat d) = Some d.
Proof.
  intros Hv. pose proof (datetime_valid_bounds d Hv) as (Hy & Hmo & Hd & Hh & Hmi & Hs & Hus).
  unfold fromisoformat, isoformat, isoformat_sep.
  rewrite ?string_app_cons, ?string_app_nil_l.
  rewrite (take_digits_digits 10 4) by (done || lia). cbn [mbind option_bind expect_char Ascii.eqb Bool.eqb].
  rewrite (take_digits_digits 10 2) by (done || lia). cbn [mbind option_bind expect_char Ascii.eqb Bool.eqb].
  rewrite (take_digits_digits 10 2) by (done || lia). cbn [mbind option_bind skip_char].
  rewrite ?string_app_cons, ?string_app_nil_l.
  rewrite (take_digits_digits 10 2) by (done || lia). cbn [mbind option_bind expect_char Ascii.eqb Bool.eqb].
  rewrite (take_digits_digits 10 2) by (done || lia). cbn [mbind option_bind expect_char Ascii.eqb Bool.eqb].
  rewrite (take_digits_digits 10 2) by (done || lia). cbn [mbind option_bind].
  destruct (microsecond d =? 0) eqn:Hz.
  - apply N.eqb_eq in Hz. cbn [mbind option_bind].
    replace (mkDatetime _ _ _ _ _ _ 0) with d by (destruct d; simpl in *; congruence).
    by rewrite Hv.
  - rewrite ?string_app_cons, ?string_app_nil_l.
    cbn [mbind option_bind expect_char Ascii.eqb Bool.eqb].
    rewrite <-(string_app_nil (PyStr.digits 10 6 _)).
    rewrite (take_digits_digits 10 6) by (done || lia). cbn [mbind option_bind].
    replace (mkDatetime _ _ _ _ _ _ _) with d by (by destruct d).
    by rewrite Hv.
Qed.

Lemma bson_datetime_valid d :
  datetime_valid d = true → datetime_valid (MemStore.bson_datetime d) = true.
Proof.
  unfold datetime_valid. cbn [MemStore.bson_datetime year month day hour minute second microsecond].
  rewrite !andb_true_iff, !N.leb_le, !N.ltb_lt. intros H. split_and!; try tauto.
  assert (microsecond d / 1000 * 1000 ≤ microsecond d); [|lia].
  rewrite N.mul_comm. apply N.Div0.mul_div_le.
Qed.

(** Storing a datetime keeps every field but the microseconds, which lose
    what is finer than a millisecond. *)
Lemma bson_datetime_truncates d :
  let d' := MemStore.bson_datetime d in
  year d' = year d ∧ month d' = month d ∧ day d' = day d
  ∧ hour d' = hour d ∧ minute d' = minute d ∧ second d' = second d
  ∧ microsecond d' ≤ microsecond d < microsecond d' + 1000
  ∧ microsecond d' mod 1000 = 0.
Proof.
  cbn. split_and!; try done.
  - rewrite N.mul_comm. apply N.Div0.mul_div_le.
  - pose proof (N.div_mod (microsecond d) 1000 ltac:(done)).
    pose proof (N.mod_lt (microsecond d) 1000 ltac:(done)). lia.
  - apply N.Div0.mod_mul.
Qed.

(** ** The formatter *)

Lemma falsy_Some_false (t : doc) : falsy (Some t) = false ↔ t ≠ ∅.
Proof.
  simpl. rewrite Nat.eqb_neq. by rewrite map_size_empty_iff.
Qed.

Lemma detail_format_todo todo :
  TodoDetailView._format_todo todo = TodoListView._format_todo todo.
Proof. reflexivity. Qed.

(** What the formatter returns for a document with at least one field. *)
Lemma format_todo_fields (t : doc) :
  t ≠ ∅ →
  ∃ f : doc, TodoListView._format_todo (Some t) = Some f
    ∧ f !! "_id" = (λ v, VStr (py_str v)) <$> t !! "_id"
    ∧ f !! "created_at" =
        (λ v, match v with VDatetime d => VStr (isoformat d) | _ => v end)
          <$> t !! "created_at"
    ∧ ∀ k, k ≠ "_id" → k ≠ "created_at" → f !! k = t !! k.
Proof.
  intros Hne%falsy_Some_false. unfold TodoListView._format_todo. rewrite Hne.
  eexists; split; [reflexivity|].
  destruct (t !! "_id") as [v|] eqn:Hid.
  - rewrite lookup_insert_ne by done.
    destruct (t !! "created_at") as [[]|] eqn:Hc; simplify_map_eq; split_and!;
      try done; intros; by simplify_map_eq.
  - destruct (t !! "created_at") as [[]|] eqn:Hc; simplify_map_eq; split_and!;
      try done; intros; by simplify_map_eq.
Qed.

Lemma format_todo_falsy todo :
  falsy todo = true → TodoListView._format_todo todo = None.
Proof. unfold TodoListView._format_todo. by intros ->. Qed.

(** On documents that have an [_id], the loop body of [get] and the
    formatter agree. *)
Lemma get_step_format_todo (t : doc) :
  is_Some (t !! "_id") →
  ∃ f, TodoListView.get_step t = Ok f
       ∧ TodoListView._format_todo (Some t) = Some f.
Proof.
  intros [v Hv]. unfold TodoListView.get_step, TodoListView._format_todo.
  assert (t ≠ ∅) as Hne%falsy_Some_false.
  { intros ->. by rewrite lookup_empty in Hv. }
  rewrite Hne, Hv. eauto.
Qed.

(** The heap version allocates the result, leaves every object that was
    there as it was, and computes what [_format_todo] computes. *)
Lemma format_todo_heap_spec (h : Heap.heap) (todo : option Heap.loc) :
  let '(h', r) := TodoListView._format_todo_heap h todo in
  (∀ l, is_Some (h !! l) → h' !! l = h !! l)
  ∧ (l ← r; h' !! l) = TodoListView._format_todo (l ← todo; h !! l)
  ∧ (∀ l', r = Some l' → h !! l' = None).
Proof.
  unfold TodoListView._format_todo_heap.
  destruct (falsy (l ← todo; h !! l)) eqn:Hf.
  { split_and!; [done| |done]. by rewrite format_todo_falsy. }
  destruct (l ← todo; h !! l) as [t|] eqn:Ht; [|done].
  unfold Heap.dict_copy, Heap.getitem, Heap.setitem.
  set (l' := fresh (dom h)).
  assert (h !! l' = None) as Hfresh.
  { apply not_elem_of_dom. apply is_fresh. }
  assert (∀ l, is_Some (h !! l) → l' ≠ l) as Hne.
  { intros l [x Hx] <-. congruence. }
  unfold TodoListView._format_todo. rewrite Hf.
  rewrite lookup_insert_eq. cbn [mbind option_bind].
  destruct (t !! "_id") as [v|] eqn:Hid.
  - rewrite lookup_alter_eq, lookup_insert_eq. cbn [fmap option_fmap option_map mbind option_bind].
    rewrite !lookup_insert_ne by done.
    destruct (t !! "created_at") as [[]|] eqn:Hc;
      (split_and!;
       [ intros l Hl; rewrite ?lookup_alter_ne, ?lookup_insert_ne by auto; done
       | cbn [mbind option_bind];
         rewrite ?lookup_alter_eq, ?lookup_insert_eq; done
       | by intros ? [= <-] ]).
  - rewrite lookup_insert_eq. cbn [mbind option_bind].
    destruct (t !! "created_at") as [[]|] eqn:Hc;
      (split_and!;
       [ intros l Hl; rewrite ?lookup_alter_ne, ?lookup_insert_ne by auto; done
       | cbn [mbind option_bind];
         rewrite ?lookup_alter_eq, ?lookup_insert_eq; done
       | by intros ? [= <-] ]).
Qed.

(** ** The monad *)

Section monad_facts.
Context {S : Type}.
Implicit Types P : S → Prop.

Lemma preserves_ret {A} P (a : A) : preserves P (ret a).
Proof. by intros s. Qed.

Lemma preserves_lift {A} P (r : result A) : preserves P (lift r).
Proof. by intros s. Qed.

Lemma preserves_raise {A} P e : preserves P (raise (A:=A) e).
Proof. by intros s. Qed.

Lemma preserves_failure P msg code : preserves P (failure msg code).
Proof. by intros s. Qed.

Lemma preserves_bind {A B} P (c : M S A) (k : A → M S B) :
  preserves P c → (∀ a, preserves P (k a)) → preserves P (bind c k).
Proof.
  intros Hc Hk s Hs. unfold bind. specialize (Hc s Hs).
  destruct (c s) as [[a|e] s1]; simpl in *; [by apply Hk|done].
Qed.

Lemma preserves_bind_lift {A B} P (r : result A) (k : A → M S B) :
  (∀ a, r = Ok a → preserves P (k a)) → preserves P (bind (lift r) k).
Proof.
  intros Hk s Hs. unfold bind, lift. destruct r as [a|e]; [by apply Hk|done].
Qed.

Lemma preserves_dispatch {A} P (clauses : list (except_clause * (exn → M S A))) e :
  Forall (λ ch, ∀ e, preserves P (ch.2 e)) clauses →
  preserves P (dispatch clauses e).
Proof.
  induction 1 as [|[c h] rest Hh _ IH]; simpl; [apply preserves_raise|].
  destruct (clause_matches c e); [apply Hh|apply IH].
Qed.

Lemma preserves_try_except {A} P (body : M S A) clauses :
  preserves P body →
  Forall (λ ch, ∀ e, preserves P (ch.2 e)) clauses →
  preserves P (try_except body clauses).
Proof.
  intros Hb Hc s Hs. unfold try_except. specialize (Hb s Hs).
  destruct (body s) as [[a|e] s1]; simpl in *; [done|].
  by apply preserves_dispatch.
Qed.

Lemma returns_ret {A} (Q : A → Prop) (a : A) : Q a → returns (S:=S) Q (ret a).
Proof. intros Ha s a' s' [= <- _]. done. Qed.

Lemma returns_failure (Q : Response → Prop) msg code :
  Q (mkResponse (Failure msg) code) → returns (S:=S) Q (failure msg code).
Proof. apply returns_ret. Qed.

Lemma returns_bind {A B} (Q : B → Prop) (c : M S A) (k : A → M S B) :
  (∀ a, returns Q (k a)) → returns Q (bind c k).
Proof.
  intros Hk s b s'. unfold bind.
  destruct (c s) as [[a|e] s1]; [apply Hk|done].
Qed.

Lemma returns_dispatch {A} (Q : A → Prop) (clauses : list (except_clause * (exn → M S A))) e :
  Forall (λ ch, ∀ e, returns Q (ch.2 e)) clauses →
  returns Q (dispatch clauses e).
Proof.
  induction 1 as [|[c h] rest Hh _ IH]; simpl; [by intros s a s'|].
  destruct (clause_matches c e); [apply Hh|apply IH].
Qed.

Lemma returns_try_except {A} (Q : A → Prop) (body : M S A) clauses :
  returns Q body →
  Forall (λ ch, ∀ e, returns Q (ch.2 e)) clauses →
  returns Q (try_except body clauses).
Proof.
  intros Hb Hc s a s'. unfold try_except.
  destruct (body s) as [[a0|e] s1] eqn:Hbody.
  - intros [= <- <-]. by eapply Hb.
  - by apply returns_dispatch.
Qed.

(** A [try] whose clauses catch every exception and whose handlers return
    cannot raise. *)
Lemma try_except_never_raises {A} (body : M S A) clauses :
  (∀ e, never_raises (dispatch clauses e)) →
  never_raises (try_except body clauses).
Proof.
  intros Hd s. unfold try_except.
  destruct (body s) as [[a|e] s1]; [eauto|apply Hd].
Qed.

End monad_facts.

(** ** The views over an arbitrary store *)

Section any_store.
Context {S : Type} `{!Store S}.
Implicit Types (s : S) (data : request_data) (raw : string).

Lemma post_description_required data raw now s :
  data_get_description data = Ok (VStr raw) → PyStr.strip raw = "" →
  TodoListView.post data now s = (Ok (bad_request description_required), s).
Proof.
  intros Hd Hs. unfold TodoListView.post, try_except, TodoListView.post_try,
    bind, lift. rewrite Hd. simpl. by rewrite Hs.
Qed.

Lemma post_description_too_long data raw now s :
  data_get_description data = Ok (VStr raw) →
  (MAX_DESCRIPTION_LENGTH < String.length (PyStr.strip raw))%nat →
  TodoListView.post data now s = (Ok (bad_request description_too_long), s).
Proof.
  intros Hd Hlen. unfold TodoListView.post, try_except, TodoListView.post_try,
    bind, lift. rewrite Hd. cbn [strip_method].
  destruct (String.length (PyStr.strip raw) =? 0)%nat eqn:H0.
  { apply Nat.eqb_eq in H0. lia. }
  apply Nat.ltb_lt in Hlen. by rewrite Hlen.
Qed.

Lemma post_not_a_string data v now s :
  data_get_description data = Ok v → (∀ x, v ≠ VStr x) →
  TodoListView.post data now s =
  (Ok (mkResponse (Failure (unexpected_message (OpCreate data now)))
                  HTTP_500_INTERNAL_SERVER_ERROR), s).
Proof.
  intros Hd Hv. unfold TodoListView.post, try_except, TodoListView.post_try,
    bind, lift. rewrite Hd. destruct v as [| | |x| |]; try done. by destruct (Hv x).
Qed.

Lemma put_invalid_id data todo_id e s :
  ObjectId_new todo_id = Raise e →
  TodoDetailView.put data todo_id s = (Ok (bad_request "Invalid todo ID format."), s).
Proof.
  intros Hid. unfold TodoDetailView.put, try_except, TodoDetailView.put_try.
  by rewrite Hid.
Qed.

Lemma put_description_required data raw todo_id oid s :
  ObjectId_new todo_id = Ok oid →
  data_get_description data = Ok (VStr raw) → PyStr.strip raw = "" →
  TodoDetailView.put data todo_id s = (Ok (bad_request description_required), s).
Proof.
  intros Hid Hd Hs. unfold TodoDetailView.put, try_except,
    TodoDetailView.put_try, bind, lift. rewrite Hid, Hd. simpl. by rewrite Hs.
Qed.

Lemma put_description_too_long data raw todo_id oid s :
  ObjectId_new todo_id = Ok oid →
  data_get_description data = Ok (VStr raw) →
  (MAX_DESCRIPTION_LENGTH < String.length (PyStr.strip raw))%nat →
  TodoDetailView.put data todo_id s = (Ok (bad_request description_too_long), s).
Proof.
  intros Hid Hd Hlen. unfold TodoDetailView.put, try_except,
    TodoDetailView.put_try, bind, lift. rewrite Hid, Hd. cbn [strip_method].
  destruct (String.length (PyStr.strip raw) =? 0)%nat eqn:H0.
  { apply Nat.eqb_eq in H0. lia. }
  apply Nat.ltb_lt in Hlen. by rewrite Hlen.
Qed.

Lemma put_not_a_string data v todo_id oid s :
  ObjectId_new todo_id = Ok oid →
  data_get_description data = Ok v → (∀ x, v ≠ VStr x) →
  TodoDetailView.put data todo_id s =
  (Ok (mkResponse (Failure (unexpected_message (OpUpdate data todo_id)))
                  HTTP_500_INTERNAL_SERVER_ERROR), s).
Proof.
  intros Hid Hd Hv. unfold TodoDetailView.put, try_except,
    TodoDetailView.put_try, bind, lift. rewrite Hid, Hd.
  destruct v as [| | |x| |]; try done. by destruct (Hv x).
Qed.

Lemma put_not_found data raw todo_id oid s existing s1 :
  ObjectId_new todo_id = Ok oid →
  data_get_description data = Ok (VStr raw) →
  PyStr.strip raw ≠ "" →
  (String.length (PyStr.strip raw) ≤ MAX_DESCRIPTION_LENGTH)%nat →
  find_one oid s = (Ok existing, s1) → falsy existing = true →
  TodoDetailView.put data todo_id s =
  (Ok (mkResponse (Failure "Todo not found.") HTTP_404_NOT_FOUND), s1).
Proof.
  intros Hid Hd Hne Hlen Hfind Hfalsy. unfold TodoDetailView.put, try_except,
    TodoDetailView.put_try, bind, lift. rewrite Hid, Hd. cbn [strip_method].
  destruct (String.length (PyStr.strip raw) =? 0)%nat eqn:H0.
  { by apply length_zero_empty in H0. }
  apply Nat.ltb_ge in Hlen. rewrite Hlen, Hfind, Hfalsy. done.
Qed.

Lemma delete_zero_deleted todo_id oid s existing s1 s2 :
  ObjectId_new todo_id = Ok oid →
  find_one oid s = (Ok existing, s1) → falsy existing = false →
  delete_one oid s1 = (Ok 0, s2) →
  TodoDetailView.delete todo_id s =
  (Ok (mkResponse (Failure "Failed to delete todo.")
                  HTTP_500_INTERNAL_SERVER_ERROR), s2).
Proof.
  intros Hid Hfind Hex Hdel. unfold TodoDetailView.delete, try_except,
    TodoDetailView.delete_try, bind. by rewrite Hid, Hfind, Hex, Hdel.
Qed.

Lemma delete_not_found todo_id oid s existing s1 :
  ObjectId_new todo_id = Ok oid →
  find_one oid s = (Ok existing, s1) → falsy existing = true →
  TodoDetailView.delete todo_id s =
  (Ok (mkResponse (Failure "Todo not found.") HTTP_404_NOT_FOUND), s1).
Proof.
  intros Hid Hfind Hex. unfold TodoDetailView.delete, try_except,
    TodoDetailView.delete_try, bind. by rewrite Hid, Hfind, Hex.
Qed.

(** [get] on a cursor whose documents all have an [_id]. *)
Lemma get_loop_format cursor todos :
  Forall (λ t : doc, is_Some (t !! "_id")) cursor →
  ∃ out, TodoListView.get_loop cursor todos = Ok (todos ++ out)%list
    ∧ Some <$> out = (λ t, TodoListView._format_todo (Some t)) <$> cursor.
Proof.
  intros Hall. revert todos.
  induction Hall as [|t cursor Ht _ IH]; intros todos; simpl.
  - exists []. by rewrite app_nil_r.
  - destruct (get_step_format_todo t Ht) as (f & -> & Hfmt).
    destruct (IH (todos ++ [f])%list) as (out & -> & Hout).
    exists (f :: out). split; [by rewrite <-app_assoc|].
    by rewrite !fmap_cons, Hout, Hfmt.
Qed.

Lemma get_ok s cursor s1 :
  find_sort "created_at" (-1)%Z s = (Ok cursor, s1) →
  Forall (λ t : doc, is_Some (t !! "_id")) cursor →
  ∃ todos, TodoListView.get s =
            (Ok (mkResponse (SuccessList todos (length todos)) HTTP_200_OK), s1)
    ∧ Some <$> todos = (λ t, TodoListView._format_todo (Some t)) <$> cursor.
Proof.
  intros Hfind Hall. destruct (get_loop_format cursor [] Hall) as (out & Hloop & Hout).
  exists out. split; [|done].
  unfold TodoListView.get, try_except, TodoListView.get_try, bind, lift.
  by rewrite Hfind, Hloop.
Qed.

End any_store.

(** ** The in-memory collection *)

Section mem_facts.
Import MemStore.
Implicit Types (s : state) (l : list doc) (o : ObjectId) (d : doc).

Lemma arrive_quiet {A} (op : M state A) s : quiet s → arrive op s = op s.
Proof. unfold quiet, arrive. by intros ->. Qed.

Lemma quiet_eta s : quiet s → s = mkState (docs s) (next_oid s) [].
Proof. destruct s; unfold quiet; simpl. by intros ->. Qed.

Lemma has_id_true o d : has_id o d = true ↔ doc_id d = Some o.
Proof. unfold has_id. by rewrite bool_decide_eq_true. Qed.

Lemma has_id_false o d : has_id o d = false ↔ doc_id d ≠ Some o.
Proof. unfold has_id. by rewrite bool_decide_eq_false. Qed.

Lemma doc_id_is_Some d o : doc_id d = Some o → d !! "_id" = Some (VObjectId o).
Proof.
  unfold doc_id. destruct (d !! "_id") as [[]|]; try done. by intros [= ->].
Qed.

Lemma find_none_iff o l :
  List.find (has_id o) l = None ↔ Forall (λ d, doc_id d ≠ Some o) l.
Proof.
  induction l as [|d l IH]; simpl; [by split|].
  destruct (has_id o d) eqn:Hd.
  - split; [done|]. intros [Hne _]%Forall_cons. by apply has_id_true in Hd.
  - rewrite IH, Forall_cons. apply has_id_false in Hd. tauto.
Qed.

Lemma existsb_find_none o l :
  List.find (has_id o) l = None → existsb (has_id o) l = false.
Proof.
  induction l as [|d l IH]; simpl; [done|].
  destruct (has_id o d); [done|]. apply IH.
Qed.

Lemma find_fresh n l :
  Forall (id_below n) l → List.find (has_id (OID n)) l = None.
Proof.
  intros Hall. apply find_none_iff. eapply Forall_impl; [exact Hall|].
  intros d Hd Heq. unfold id_below in Hd. rewrite Heq in Hd. simpl in Hd. lia.
Qed.

Lemma find_app_new o l d :
  List.find (has_id o) l = None → has_id o d = true →
  List.find (has_id o) (l ++ [d])%list = Some d.
Proof.
  induction l as [|d' l IH]; simpl; intros Hl Hd; [by rewrite Hd|].
  destruct (has_id o d'); [done|]. by apply IH.
Qed.

Lemma find_Some_has_id o l d :
  List.find (has_id o) l = Some d → doc_id d = Some o ∧ d ∈ l.
Proof.
  intros [Hin Hd]%find_some. split; [by apply has_id_true|].
  by apply list_elem_of_In.
Qed.

Lemma remove_first_Forall (P : doc → Prop) o l :
  Forall P l → Forall P (remove_first o l).1.
Proof.
  induction 1 as [|d l Hd Hl IH]; simpl; [done|].
  destruct (has_id o d); simpl; [done|].
  destruct (remove_first o l) as [l' n]. simpl in *. by constructor.
Qed.

Lemma remove_first_count o l :
  (remove_first o l).2 = match List.find (has_id o) l with Some _ => 1 | None => 0 end.
Proof.
  induction l as [|d l IH]; simpl; [done|].
  destruct (has_id o d); [done|].
  destruct (remove_first o l) as [l' n]. simpl in *. done.
Qed.

(** Once the document with a given id is removed, no document has that id. *)
Lemma remove_first_find o l :
  NoDup (doc_id <$> l) → List.find (has_id o) (remove_first o l).1 = None.
Proof.
  induction l as [|d l IH]; [done|].
  rewrite fmap_cons, NoDup_cons. intros [Hd Hnd]. simpl.
  destruct (has_id o d) eqn:Ho; simpl.
  - apply has_id_true in Ho. rewrite Ho in Hd. apply find_none_iff.
    apply Forall_forall. intros d' Hd' Heq. apply Hd.
    rewrite <-Heq. by apply list_elem_of_fmap_2.
  - specialize (IH Hnd). destruct (remove_first o l) as [l' n]. simpl in *.
    by rewrite Ho.
Qed.

(** [update_first], position by position. *)
Lemma update_first_lookup o (f : doc → doc) l j d :
  l !! j = Some d →
  ∃ d', (update_first o f l).1 !! j = Some d'
        ∧ (d' = d ∨ (doc_id d = Some o ∧ d' = f d)).
Proof.
  revert j. induction l as [|d0 l IH]; intros j Hj; [done|]. simpl.
  destruct (has_id o d0) eqn:Ho; simpl.
  - destruct j as [|j]; simpl in *.
    + injection Hj as ->. apply has_id_true in Ho. eauto.
    + eauto.
  - destruct (update_first o f l) as [l' n] eqn:Hu. simpl in *.
    destruct j as [|j]; simpl in *; [eauto|]. by apply IH.
Qed.

Lemma update_first_length o (f : doc → doc) l :
  length (update_first o f l).1 = length l.
Proof.
  induction l as [|d l IH]; simpl; [done|].
  destruct (has_id o d); simpl; [done|].
  destruct (update_first o f l) as [l' n]. simpl in *. by rewrite IH.
Qed.

(** The matched document is the one [find_one] returns, and it is replaced
    by [f] of it. *)
Lemma update_first_found o (f : doc → doc) l d :
  List.find (has_id o) l = Some d →
  ∃ j, l !! j = Some d ∧ (update_first o f l).1 = <[j := f d]> l
       ∧ (update_first o f l).2 = 1.
Proof.
  induction l as [|d0 l IH]; simpl; [done|].
  destruct (has_id o d0) eqn:Ho.
  - intros [= ->]. by exists 0%nat.
  - intros Hf. destruct (IH Hf) as (j & Hj & Hl & Hn).
    destruct (update_first o f l) as [l' n]. simpl in *.
    exists (Datatypes.S j). subst. done.
Qed.

Lemma update_first_ext o (f g : doc → doc) l :
  (∀ d, f d = g d) → update_first o f l = update_first o g l.
Proof.
  intros Hfg. induction l as [|d l IH]; simpl; [done|].
  by rewrite IH, Hfg.
Qed.

Lemma update_first_Forall (P : doc → Prop) o (f : doc → doc) l :
  (∀ d, P d → P (f d)) → Forall P l → Forall P (update_first o f l).1.
Proof.
  intros Hf. induction 1 as [|d l Hd Hl IH]; simpl; [done|].
  destruct (has_id o d); simpl; [constructor; auto|].
  destruct (update_first o f l) as [l' n]. simpl in *. by constructor.
Qed.

End mem_facts.

(** ** The views over the in-memory collection *)

Section mem_views.
Import MemStore.
Implicit Types (s : state) (l : list doc) (o : ObjectId) (d : doc).

Lemma mem_find_one_quiet o s :
  quiet s → find_one o s = (Ok (List.find (has_id o) (docs s)), s).
Proof. intros Hq. cbn [find_one mem_store]. unfold mem_find_one. by rewrite arrive_quiet. Qed.

Lemma found_not_falsy o l d : List.find (has_id o) l = Some d → falsy (Some d) = false.
Proof.
  intros [Hid _]%find_Some_has_id. apply falsy_Some_false. intros ->.
  by apply doc_id_is_Some in Hid.
Qed.

Lemma stored_todo_has_id description now o :
  has_id o (stored_todo description now o) = true.
Proof.
  apply has_id_true. unfold doc_id, stored_todo. by rewrite lookup_insert_eq.
Qed.

(** [post] with an acceptable description, no fault and no other client. *)
Lemma post_created data raw now s :
  wf s → quiet s →
  data_get_description data = Ok (VStr raw) →
  PyStr.strip raw ≠ "" →
  (String.length (PyStr.strip raw) ≤ MAX_DESCRIPTION_LENGTH)%nat →
  let stored := stored_todo (PyStr.strip raw) now (OID (next_oid s)) in
  TodoListView.post data now s =
  (Ok (mkResponse
         (SuccessItem (TodoListView._format_todo (Some stored))
                      "Todo created successfully")
         HTTP_201_CREATED),
   mkState (docs s ++ [stored])%list (next_oid s + 1) []).
Proof.
  intros [Hbelow _] Hq Hd Hne Hlen stored.
  unfold TodoListView.post, try_except, TodoListView.post_try, bind, lift.
  rewrite Hd. cbn [strip_method].
  destruct (String.length (PyStr.strip raw) =? 0)%nat eqn:H0.
  { by apply length_zero_empty in H0. }
  apply Nat.ltb_ge in Hlen. rewrite Hlen.
  cbn [insert_one mem_store]. unfold mem_insert_one.
  rewrite arrive_quiet by done.
  pose proof (find_fresh _ _ Hbelow) as Hfresh.
  rewrite (existsb_find_none _ _ Hfresh).
  cbn [find_one mem_store]. unfold mem_find_one, arrive. cbn [pending docs].
  rewrite Hq. fold (stored_todo (PyStr.strip raw) now (OID (next_oid s))).
  fold stored. rewrite (find_app_new _ _ stored Hfresh (stored_todo_has_id _ _ _)).
  done.
Qed.

(** [put] with an acceptable description on a document that is there, no
    fault and no other client. *)
Lemma put_updated data raw todo_id o s d :
  quiet s →
  ObjectId_new todo_id = Ok o →
  data_get_description data = Ok (VStr raw) →
  PyStr.strip raw ≠ "" →
  (String.length (PyStr.strip raw) ≤ MAX_DESCRIPTION_LENGTH)%nat →
  List.find (has_id o) (docs s) = Some d →
  let l := (update_first o (λ d, <["description" := VStr (PyStr.strip raw)]> d)
                         (docs s)).1 in
  TodoDetailView.put data todo_id s =
  (Ok (mkResponse
         (SuccessItem (TodoDetailView._format_todo (List.find (has_id o) l))
                      "Todo updated successfully")
         HTTP_200_OK),
   mkState l (next_oid s) []).
Proof.
  intros Hq Hid Hd Hne Hlen Hfind l.
  unfold TodoDetailView.put, try_except, TodoDetailView.put_try, bind, lift.
  rewrite Hid, Hd. cbn [strip_method].
  destruct (String.length (PyStr.strip raw) =? 0)%nat eqn:H0.
  { by apply length_zero_empty in H0. }
  apply Nat.ltb_ge in Hlen. rewrite Hlen.
  rewrite mem_find_one_quiet, Hfind, (found_not_falsy _ _ _ Hfind) by done.
  cbn [update_one_set mem_store]. unfold mem_update_one_set.
  rewrite arrive_quiet by done.
  rewrite map_fmap_singleton. cbn [bson_value].
  replace (update_first o (λ d0, {["description" := VStr (PyStr.strip raw)]} ∪ d0) (docs s))
    with (update_first o (λ d0, <["description" := VStr (PyStr.strip raw)]> d0) (docs s)).
  2:{ apply update_first_ext. intros d0. apply insert_union_singleton_l. }
  destruct (update_first o _ (docs s)) as [l' n] eqn:Hu. subst l. simpl.
  by rewrite Hq.
Qed.

End mem_views.

(** * The claims *)

(** C1. create(description): the description is trimmed first; an empty
    result is answered 400 with the "required" message, whatever the length
    of the raw text; a trimmed length above 500 is answered 400 with the
    "cannot exceed" message; neither touches the store. A trimmed length of
    exactly 500 is answered 201 when the store is well formed and quiet. *)
Theorem C1_create_validation (data : request_data) (raw : string) (now : datetime) :
  data_get_description data = Ok (VStr raw) →
  (PyStr.strip raw = "" →
     ∀ S (st : Store S) (s : S),
       TodoListView.post data now s =
       (Ok (mkResponse (Failure description_required) HTTP_400_BAD_REQUEST), s))
  ∧ ((500 < String.length (PyStr.strip raw))%nat →
     ∀ S (st : Store S) (s : S),
       TodoListView.post data now s =
       (Ok (mkResponse (Failure description_too_long) HTTP_400_BAD_REQUEST), s))
  ∧ (String.length (PyStr.strip raw) = 500%nat →
     ∀ s : MemStore.state, MemStore.wf s → MemStore.quiet s →
       ∃ created s',
         TodoListView.post data now s =
         (Ok (mkResponse (SuccessItem (Some created) "Todo created successfully")
                         HTTP_201_CREATED), s')).
Proof.
  intros Hd. split_and!.
  - intros Hs S st s. by eapply post_description_required.
  - intros Hlen S st s. by eapply post_description_too_long.
  - intros Hlen s Hwf Hq.
    assert (PyStr.strip raw ≠ "") as Hne.
    { intros Heq. by rewrite Heq in Hlen. }
    assert (String.length (PyStr.strip raw) ≤ MAX_DESCRIPTION_LENGTH)%nat as Hle.
    { rewrite Hlen. done. }
    rewrite (post_created data raw now s Hwf Hq Hd Hne Hle).
    destruct (format_todo_fields
                (stored_todo (PyStr.strip raw) now (OID (MemStore.next_oid s))))
      as (f & -> & _).
    { apply insert_non_empty. }
    eauto.
Qed.

Lemma C1_create_validation_witness :
  TodoListView.post (Sample.body_of (VStr "   ")) Sample.now Sample.empty =
    (Ok (mkResponse (Failure description_required) HTTP_400_BAD_REQUEST),
     Sample.empty)
  ∧ TodoListView.post (Sample.body_of (VStr (PyStr.replicate_char 501 "a")))
      Sample.now Sample.empty =
    (Ok (mkResponse (Failure description_too_long) HTTP_400_BAD_REQUEST),
     Sample.empty)
  ∧ ∃ created s',
      TodoListView.post (Sample.body_of (VStr (PyStr.replicate_char 500 "a")))
        Sample.now Sample.empty =
      (Ok (mkResponse (SuccessItem (Some created) "Todo created successfully")
                      HTTP_201_CREATED), s').
Proof.
  split_and!.
  - apply (C1_create_validation (Sample.body_of (VStr "   ")) "   " Sample.now);
      reflexivity.
  - apply (C1_create_validation
             (Sample.body_of (VStr (PyStr.replicate_char 501 "a")))
             (PyStr.replicate_char 501 "a") Sample.now); [reflexivity|].
    apply Nat.ltb_lt. vm_compute. reflexivity.
  - apply (C1_create_validation
             (Sample.body_of (VStr (PyStr.replicate_char 500 "a")))
             (PyStr.replicate_char 500 "a") Sample.now).
    + reflexivity.
    + vm_compute. reflexivity.
    + split; constructor.
    + reflexivity.
Defined.

(** C2. delete(id): on a well-formed, quiet collection, after a delete that
    was answered 200 a second delete of the same id is answered 404. Over any
    store, when the lookup finds the document and the removal then reports
    zero deleted documents, the answer is 500 with "Failed to delete todo.",
    not 404. *)
Theorem C2_delete_twice_and_race :
  (∀ (todo_id : string) (s s1 : MemStore.state) (r : Response),
     MemStore.wf s → MemStore.quiet s →
     TodoDetailView.delete todo_id s = (Ok r, s1) → status r = HTTP_200_OK →
     TodoDetailView.delete todo_id s1 =
     (Ok (mkResponse (Failure "Todo not found.") HTTP_404_NOT_FOUND), s1))
  ∧ (∀ S (st : Store S) (todo_id : string) (o : ObjectId) (existing : doc)
       (s s1 s2 : S),
     ObjectId_new todo_id = Ok o →
     find_one o s = (Ok (Some existing), s1) → existing ≠ ∅ →
     delete_one o s1 = (Ok 0, s2) →
     TodoDetailView.delete todo_id s =
     (Ok (mkResponse (Failure "Failed to delete todo.")
                     HTTP_500_INTERNAL_SERVER_ERROR), s2)).
Proof.
  split.
  - intros todo_id s s1 r [_ Hnd] Hq Hdel Hst.
    destruct (ObjectId_new todo_id) as [o|e] eqn:Hid.
    2:{ unfold TodoDetailView.delete, try_except, TodoDetailView.delete_try in Hdel.
        rewrite Hid in Hdel. injection Hdel as <- <-. done. }
    pose proof (mem_find_one_quiet o s Hq) as Hfind.
    destruct (List.find (MemStore.has_id o) (MemStore.docs s)) as [d|] eqn:Hd.
    2:{ rewrite (delete_not_found todo_id o s None s Hid Hfind eq_refl) in Hdel.
        injection Hdel as <- <-. done. }
    unfold TodoDetailView.delete, try_except, TodoDetailView.delete_try, bind in Hdel.
    rewrite Hid, Hfind, (found_not_falsy _ _ _ Hd) in Hdel.
    cbn [delete_one MemStore.mem_store] in Hdel.
    unfold MemStore.mem_delete_one in Hdel. rewrite arrive_quiet in Hdel by done.
    pose proof (remove_first_find o _ Hnd) as Hgone.
    destruct (MemStore.remove_first o (MemStore.docs s)) as [l n] eqn:Hrm.
    simpl in Hgone.
    assert (s1 = MemStore.mkState l (MemStore.next_oid s) (MemStore.pending s)) as ->.
    { destruct (n =? 0); by injection Hdel. }
    apply (delete_not_found todo_id o _ None _ Hid); [|done].
    rewrite mem_find_one_quiet by done. simpl. by rewrite Hgone.
  - intros S st todo_id o existing s s1 s2 Hid Hfind Hne Hdel.
    eapply delete_zero_deleted; [done..| |done]. by apply falsy_Some_false.
Qed.

Lemma C2_delete_twice_and_race_witness :
  TodoDetailView.delete Sample.milk_id (MemStore.mkState [] 2 []) =
    (Ok (mkResponse (Failure "Todo not found.") HTTP_404_NOT_FOUND),
     MemStore.mkState [] 2 [])
  ∧ TodoDetailView.delete Sample.milk_id Sample.milk_raced =
    (Ok (mkResponse (Failure "Failed to delete todo.")
                    HTTP_500_INTERNAL_SERVER_ERROR),
     MemStore.mkState [] 2 []).
Proof.
  split.
  - apply (proj1 C2_delete_twice_and_race Sample.milk_id Sample.milk
             (MemStore.mkState [] 2 [])
             (mkResponse (SuccessMessage "Todo deleted successfully") HTTP_200_OK)).
    + split; [repeat constructor|].
      apply NoDup_singleton.
    + reflexivity.
    + vm_compute. reflexivity.
    + reflexivity.
  - apply (proj2 C2_delete_twice_and_race MemStore.state _ Sample.milk_id (OID 1)
             (stored_todo "buy milk" Sample.now (OID 1))
             Sample.milk_raced
             (MemStore.mkState [stored_todo "buy milk" Sample.now (OID 1)] 2
                               [MemStore.ConcurrentDelete (OID 1)])).
    + reflexivity.
    + vm_compute. reflexivity.
    + apply insert_non_empty.
    + vm_compute. reflexivity.
Defined.

(** C3. update(id, description): an id that [ObjectId] rejects is answered
    400 "Invalid todo ID format." with the store untouched, for every store
    and every body. With a parseable id the description is checked next:
    empty after trimming is 400 "required", longer than 500 is 400 "cannot
    exceed", both before any store access. With a parseable id and an
    acceptable description, a lookup that finds nothing is answered 404; on
    the quiet in-memory collection that is the case whenever no document has
    the id. *)
Theorem C3_update_validation (data : request_data) (todo_id : string) :
  (∀ e, ObjectId_new todo_id = Raise e →
     ∀ S (st : Store S) (s : S),
       TodoDetailView.put data todo_id s =
       (Ok (mkResponse (Failure "Invalid todo ID format.") HTTP_400_BAD_REQUEST), s))
  ∧ (∀ o raw,
       ObjectId_new todo_id = Ok o →
       data_get_description data = Ok (VStr raw) →
       (PyStr.strip raw = "" →
          ∀ S (st : Store S) (s : S),
            TodoDetailView.put data todo_id s =
            (Ok (mkResponse (Failure description_required) HTTP_400_BAD_REQUEST), s))
       ∧ ((500 < String.length (PyStr.strip raw))%nat →
          ∀ S (st : Store S) (s : S),
            TodoDetailView.put data todo_id s =
            (Ok (mkResponse (Failure description_too_long) HTTP_400_BAD_REQUEST), s))
       ∧ (PyStr.strip raw ≠ "" → (String.length (PyStr.strip raw) ≤ 500)%nat →
          (∀ S (st : Store S) (s s1 : S),
             find_one o s = (Ok None, s1) →
             TodoDetailView.put data todo_id s =
             (Ok (mkResponse (Failure "Todo not found.") HTTP_404_NOT_FOUND), s1))
          ∧ (∀ s : MemStore.state,
               MemStore.quiet s →
               Forall (λ d, MemStore.doc_id d ≠ Some o) (MemStore.docs s) →
               TodoDetailView.put data todo_id s =
               (Ok (mkResponse (Failure "Todo not found.") HTTP_404_NOT_FOUND), s)))).
Proof.
  split.
  - intros e Hid S st s. by eapply put_invalid_id.
  - intros o raw Hid Hd. split_and!.
    + intros Hs S st s. by eapply put_description_required.
    + intros Hlen S st s. by eapply put_description_too_long.
    + intros Hne Hlen. split.
      * intros S st s s1 Hfind. by eapply put_not_found.
      * intros s Hq Hall.
        apply (put_not_found data raw todo_id o s None s Hid Hd Hne Hlen); [|done].
        rewrite mem_find_one_quiet by done. f_equal. f_equal.
        by apply find_none_iff.
Qed.

Lemma C3_update_validation_witness :
  TodoDetailView.put (Sample.body_of (VStr "buy oat milk")) "not-an-id" Sample.milk =
    (Ok (mkResponse (Failure "Invalid todo ID format.") HTTP_400_BAD_REQUEST),
     Sample.milk)
  ∧ TodoDetailView.put (Sample.body_of (VStr "  ")) Sample.milk_id Sample.empty =
    (Ok (mkResponse (Failure description_required) HTTP_400_BAD_REQUEST),
     Sample.empty)
  ∧ TodoDetailView.put (Sample.body_of (VStr (PyStr.replicate_char 501 "a")))
      Sample.milk_id Sample.empty =
    (Ok (mkResponse (Failure description_too_long) HTTP_400_BAD_REQUEST),
     Sample.empty)
  ∧ TodoDetailView.put (Sample.body_of (VStr "buy oat milk")) Sample.milk_id
      Sample.empty =
    (Ok (mkResponse (Failure "Todo not found.") HTTP_404_NOT_FOUND), Sample.empty).
Proof.
  split_and!.
  - eapply (proj1 (C3_update_validation _ "not-an-id")). reflexivity.
  - apply (proj2 (C3_update_validation (Sample.body_of (VStr "  ")) Sample.milk_id)
             (OID 1) "  "); reflexivity.
  - apply (proj2 (C3_update_validation
                    (Sample.body_of (VStr (PyStr.replicate_char 501 "a")))
                    Sample.milk_id)
             (OID 1) (PyStr.replicate_char 501 "a")); [reflexivity..|].
    apply Nat.ltb_lt. vm_compute. reflexivity.
  - apply (proj2 (C3_update_validation (Sample.body_of (VStr "buy oat milk"))
                    Sample.milk_id)
             (OID 1) "buy oat milk"); [reflexivity..| | | |].
    + vm_compute. discriminate.
    + vm_compute. lia.
    + reflexivity.
    + constructor.
Defined.

(** C10. A body without a [description] is treated as one with the empty
    string: create and update (with a parseable id) answer 400 "required".
    A [description] that is present and not a string (null, a number, ...)
    makes [strip] raise; the catch-all clause answers 500 with the generic
    message of the view, and the store is not touched. *)
Theorem C10_description_absent_or_not_a_string
    {S : Type} `{!Store S} (fields : doc) (now : datetime)
    (todo_id : string) (o : ObjectId) (s : S) :
  ObjectId_new todo_id = Ok o →
  (fields !! "description" = None →
     TodoListView.post (DataDict fields) now s =
       (Ok (mkResponse (Failure description_required) HTTP_400_BAD_REQUEST), s)
     ∧ TodoDetailView.put (DataDict fields) todo_id s =
       (Ok (mkResponse (Failure description_required) HTTP_400_BAD_REQUEST), s))
  ∧ (∀ v, fields !! "description" = Some v → (∀ x, v ≠ VStr x) →
     TodoListView.post (DataDict fields) now s =
       (Ok (mkResponse
              (Failure "An unexpected error occurred while creating the todo.")
              HTTP_500_INTERNAL_SERVER_ERROR), s)
     ∧ TodoDetailView.put (DataDict fields) todo_id s =
       (Ok (mkResponse
              (Failure "An unexpected error occurred while updating the todo.")
              HTTP_500_INTERNAL_SERVER_ERROR), s)).
Proof.
  intros Hid. split.
  - intros Habs.
    assert (data_get_description (DataDict fields) = Ok (VStr "")) as Hd.
    { simpl. by rewrite Habs. }
    split.
    + by eapply post_description_required.
    + by eapply put_description_required.
  - intros v Hv Hns.
    assert (data_get_description (DataDict fields) = Ok v) as Hd.
    { simpl. by rewrite Hv. }
    split.
    + by rewrite (post_not_a_string _ v now s Hd Hns).
    + by rewrite (put_not_a_string _ v todo_id o s Hid Hd Hns).
Qed.

Lemma C10_description_absent_or_not_a_string_witness :
  (TodoListView.post (DataDict ∅) Sample.now Sample.milk =
     (Ok (mkResponse (Failure description_required) HTTP_400_BAD_REQUEST),
      Sample.milk)
   ∧ TodoDetailView.put (DataDict ∅) Sample.milk_id Sample.milk =
     (Ok (mkResponse (Failure description_required) HTTP_400_BAD_REQUEST),
      Sample.milk))
  ∧ (TodoListView.post (Sample.body_of VNone) Sample.now Sample.milk =
       (Ok (mkResponse
              (Failure "An unexpected error occurred while creating the todo.")
              HTTP_500_INTERNAL_SERVER_ERROR), Sample.milk)
     ∧ TodoDetailView.put (Sample.body_of (VInt 42)) Sample.milk_id Sample.milk =
       (Ok (mkResponse
              (Failure "An unexpected error occurred while updating the todo.")
              HTTP_500_INTERNAL_SERVER_ERROR), Sample.milk)).
Proof.
  split; [|split].
  - apply (C10_description_absent_or_not_a_string ∅ Sample.now Sample.milk_id
             (OID 1) Sample.milk); reflexivity.
  - apply (proj2 (C10_description_absent_or_not_a_string
                    {[ "description" := VNone ]} Sample.now Sample.milk_id
                    (OID 1) Sample.milk eq_refl) VNone); [reflexivity|done].
  - apply (proj2 (C10_description_absent_or_not_a_string
                    {[ "description" := VInt 42 ]} Sample.now Sample.milk_id
                    (OID 1) Sample.milk eq_refl) (VInt 42)); [reflexivity|done].
Defined.

(** ** The sort order of the collection *)

Section order_facts.
Import MemStore.

Lemma lex_leb_total a b : lex_leb a b = true ∨ lex_leb b a = true.
Proof.
  revert b. induction a as [|x a IH]; intros [|y b]; simpl; auto.
  destruct (N.lt_trichotomy x y) as [Hlt|[->|Hgt]].
  - left. apply N.ltb_lt in Hlt. by rewrite Hlt.
  - rewrite N.eqb_refl, N.ltb_irrefl. simpl. apply IH.
  - right. apply N.ltb_lt in Hgt. by rewrite Hgt.
Qed.

Lemma lex_leb_trans a b c :
  lex_leb a b = true → lex_leb b c = true → lex_leb a c = true.
Proof.
  revert b c. induction a as [|x a IH]; intros [|y b] [|z c]; simpl; try done.
  rewrite !orb_true_iff, !andb_true_iff, !N.ltb_lt, !N.eqb_eq.
  intros [Hxy|[-> Hab]] [Hyz|[-> Hbc]]; eauto with lia.
Qed.

Lemma bson_leb_total a b : bson_leb a b = true ∨ bson_leb b a = true.
Proof.
  unfold bson_leb.
  destruct a as [[|x|x|x|x|x]|], b as [[|y|y|y|y|y]|]; simpl; auto.
  - destruct x, y; auto.
  - destruct (Z.le_gt_cases x y); [left|right]; apply Z.leb_le; lia.
  - apply String.leb_total.
  - destruct (N.le_gt_cases (oid_int x) (oid_int y)); [left|right];
      apply N.leb_le; lia.
  - exact (lex_leb_total (datetime_fields x) (datetime_fields y)).
Qed.

Lemma bson_leb_trans a b c :
  bson_leb a b = true → bson_leb b c = true → bson_leb a c = true.
Proof.
  unfold bson_leb.
  destruct a as [[|x|x|x|x|x]|], b as [[|y|y|y|y|y]|],
           c as [[|z|z|z|z|z]|]; simpl; try done.
  - by destruct x, y, z.
  - rewrite !Z.leb_le. lia.
  - intros H1%Is_true_true H2%Is_true_true. apply Is_true_true.
    by apply (transitivity (R:=String.le) (y:=y)).
  - rewrite !N.leb_le. lia.
  - exact (lex_leb_trans (datetime_fields x) (datetime_fields y)
                         (datetime_fields z)).
Qed.

Global Instance sort_order_total key direction : Total (sort_order key direction).
Proof.
  intros d1 d2. unfold sort_order. destruct (direction <? 0)%Z.
  - destruct (bson_leb_total (d2 !! key) (d1 !! key)) as [->| ->]; simpl; auto.
  - destruct (bson_leb_total (d1 !! key) (d2 !! key)) as [->| ->]; simpl; auto.
Qed.

Global Instance sort_order_trans key direction :
  Transitive (sort_order key direction).
Proof.
  intros d1 d2 d3. unfold sort_order. destruct (direction <? 0)%Z.
  - intros H1%Is_true_true H2%Is_true_true. apply Is_true_true.
    by eapply bson_leb_trans.
  - intros H1%Is_true_true H2%Is_true_true. apply Is_true_true.
    by eapply bson_leb_trans.
Qed.

(** Descending on [created_at]: of two documents whose [created_at] are
    datetimes, the earlier one in the order is not the older one. *)
Lemma sort_order_newest_first (d1 d2 : doc) a1 a2 :
  d1 !! "created_at" = Some (VDatetime a1) →
  d2 !! "created_at" = Some (VDatetime a2) →
  sort_order "created_at" (-1) d1 d2 ↔
  lex_leb (datetime_fields a2) (datetime_fields a1) = true.
Proof.
  intros H1 H2. unfold sort_order, bson_leb. rewrite H1, H2. simpl.
  by rewrite Is_true_true.
Qed.

Lemma mem_find_sort_quiet key direction (s : state) :
  quiet s →
  find_sort key direction s =
  (Ok (merge_sort (sort_order key direction) (docs s)), s).
Proof.
  intros Hq. cbn [find_sort mem_store]. unfold mem_find_sort.
  by rewrite arrive_quiet.
Qed.

End order_facts.

Lemma stored_todo_lookup description now o :
  stored_todo description now o !! "_id" = Some (VObjectId o)
  ∧ stored_todo description now o !! "description" = Some (VStr description)
  ∧ stored_todo description now o !! "created_at"
    = Some (VDatetime (MemStore.bson_datetime now))
  ∧ stored_todo description now o !! "completed" = Some (VBool false).
Proof.
  unfold stored_todo. rewrite !fmap_insert, map_fmap_singleton.
  split_and!; by simplify_map_eq.
Qed.

(** C5. Round trip of create on a well-formed, quiet collection: for an
    acceptable description and a valid clock reading the answer is 201 and
    its representation has [description] equal to the trimmed input, [_id]
    a string (the 24-digit form of the new id), [completed] false, and
    [created_at] the ISO-8601 text of the stored datetime; reading that text
    gives the stored datetime back, which is the clock reading with the
    microseconds cut to whole milliseconds and every other field as it was.
    (The text carries no UTC designator: it is the naive form of the UTC
    reading.) *)
Theorem C5_create_round_trip
    (data : request_data) (raw : string) (now : datetime) (s : MemStore.state) :
  MemStore.wf s → MemStore.quiet s →
  data_get_description data = Ok (VStr raw) →
  PyStr.strip raw ≠ "" →
  (String.length (PyStr.strip raw) ≤ 500)%nat →
  datetime_valid now = true →
  ∃ (repr : doc) (s' : MemStore.state) (iso : string) (stored_at : datetime),
    TodoListView.post data now s =
    (Ok (mkResponse (SuccessItem (Some repr) "Todo created successfully")
                    HTTP_201_CREATED), s')
    ∧ repr !! "description" = Some (VStr (PyStr.strip raw))
    ∧ repr !! "_id" = Some (VStr (ObjectId_str (OID (MemStore.next_oid s))))
    ∧ repr !! "completed" = Some (VBool false)
    ∧ repr !! "created_at" = Some (VStr iso)
    ∧ iso = isoformat stored_at
    ∧ fromisoformat iso = Some stored_at
    ∧ year stored_at = year now ∧ month stored_at = month now
    ∧ day stored_at = day now ∧ hour stored_at = hour now
    ∧ minute stored_at = minute now ∧ second stored_at = second now
    ∧ microsecond stored_at ≤ microsecond now < microsecond stored_at + 1000.
Proof.
  intros Hwf Hq Hd Hne Hlen Hnow.
  rewrite (post_created data raw now s Hwf Hq Hd Hne Hlen).
  set (stored := stored_todo _ _ _).
  destruct (stored_todo_lookup (PyStr.strip raw) now (OID (MemStore.next_oid s)))
    as (Sid & Sdesc & Screated & Scompleted).
  destruct (format_todo_fields stored) as (repr & -> & Rid & Rcreated & Rother).
  { apply insert_non_empty. }
  fold stored in Sid, Sdesc, Screated, Scompleted.
  rewrite Sid in Rid. rewrite Screated in Rcreated.
  exists repr, (MemStore.mkState (MemStore.docs s ++ [stored])
                                 (MemStore.next_oid s + 1) []),
         (isoformat (MemStore.bson_datetime now)), (MemStore.bson_datetime now).
  pose proof (bson_datetime_truncates now) as (? & ? & ? & ? & ? & ? & [? ?] & ?).
  split_and!; try done.
  - by rewrite Rother, Sdesc.
  - by rewrite Rother, Scompleted.
  - apply fromisoformat_isoformat. by apply bson_datetime_valid.
Qed.

Lemma C5_create_round_trip_witness :
  ∃ (repr : doc) (s' : MemStore.state) (iso : string) (stored_at : datetime),
    TodoListView.post (Sample.body_of (VStr " buy milk ")) Sample.now Sample.empty =
    (Ok (mkResponse (SuccessItem (Some repr) "Todo created successfully")
                    HTTP_201_CREATED), s')
    ∧ repr !! "description" = Some (VStr "buy milk")
    ∧ repr !! "_id" = Some (VStr "000000000000000000000001")
    ∧ repr !! "completed" = Some (VBool false)
    ∧ repr !! "created_at" = Some (VStr iso)
    ∧ iso = isoformat stored_at
    ∧ fromisoformat iso = Some stored_at
    ∧ year stored_at = 2024 ∧ month stored_at = 5
    ∧ day stored_at = 1 ∧ hour stored_at = 10
    ∧ minute stored_at = 20 ∧ second stored_at = 30
    ∧ microsecond stored_at ≤ 123456 < microsecond stored_at + 1000.
Proof.
  apply (C5_create_round_trip (Sample.body_of (VStr " buy milk ")) " buy milk "
           Sample.now Sample.empty).
  - split; constructor.
  - reflexivity.
  - reflexivity.
  - vm_compute. discriminate.
  - vm_compute. lia.
  - reflexivity.
Defined.

(** C6. list() on a quiet collection whose documents all have an [_id]: the
    answer is 200 with a success envelope; its data is the formatter applied
    to each document of the collection, taken in an order that is a
    permutation of the collection sorted by [created_at] descending, and its
    count is the length of the data. *)
Theorem C6_list_newest_first (s : MemStore.state) :
  MemStore.quiet s →
  Forall (λ d : doc, is_Some (d !! "_id")) (MemStore.docs s) →
  ∃ (todos ordered : list doc),
    TodoListView.get s =
    (Ok (mkResponse (SuccessList todos (length todos)) HTTP_200_OK), s)
    ∧ ordered ≡ₚ MemStore.docs s
    ∧ StronglySorted (MemStore.sort_order "created_at" (-1)) ordered
    ∧ Some <$> todos = (λ t, TodoListView._format_todo (Some t)) <$> ordered.
Proof.
  intros Hq Hids.
  set (ordered := merge_sort (MemStore.sort_order "created_at" (-1)) (MemStore.docs s)).
  assert (ordered ≡ₚ MemStore.docs s) as Hperm by apply merge_sort_Permutation.
  destruct (get_ok s ordered s) as (todos & Hget & Hfmt).
  { by apply mem_find_sort_quiet. }
  { by rewrite Hperm. }
  exists todos, ordered. split_and!; try done.
  apply StronglySorted_merge_sort; apply _.
Qed.

Lemma C6_list_newest_first_witness :
  ∃ (todos ordered : list doc),
    TodoListView.get Sample.milk_and_eggs =
    (Ok (mkResponse (SuccessList todos (length todos)) HTTP_200_OK),
     Sample.milk_and_eggs)
    ∧ ordered ≡ₚ MemStore.docs Sample.milk_and_eggs
    ∧ StronglySorted (MemStore.sort_order "created_at" (-1)) ordered
    ∧ Some <$> todos = (λ t, TodoListView._format_todo (Some t)) <$> ordered.
Proof.
  apply (C6_list_newest_first Sample.milk_and_eggs).
  - reflexivity.
  - repeat constructor; eexists; reflexivity.
Defined.

(** The newer todo comes first in the answer. *)
Example list_milk_and_eggs :
  ∃ eggs milk,
    (TodoListView.get Sample.milk_and_eggs).1 =
    Ok (mkResponse (SuccessList [eggs; milk] 2) HTTP_200_OK)
    ∧ eggs !! "description" = Some (VStr "buy eggs")
    ∧ eggs !! "created_at" = Some (VStr "2024-05-01T11:00:00")
    ∧ milk !! "description" = Some (VStr "buy milk")
    ∧ milk !! "created_at" = Some (VStr "2024-05-01T10:20:30.123000").
Proof. do 2 eexists. split; [vm_compute; reflexivity|]. by vm_compute. Qed.

(** ** Failures *)

Ltac envelope :=
  solve [ left; split; [reflexivity | set_solver]
        | right; eexists; split; [reflexivity | set_solver] ].

Ltac returns_envelope :=
  repeat first
    [ apply returns_failure; envelope
    | apply returns_ret; envelope
    | apply returns_bind; intros ?
    | match goal with
      | |- returns _ (if ?b then _ else _) => destruct b
      | |- returns _ (match ?x with _ => _ end) => destruct x
      end ].

Section failures.
Context {S : Type} `{!Store S}.

Lemma dispatch_failure clauses (e : exn) (s : S) :
  clauses ∈ [ @TodoListView.get_except S; TodoListView.post_except;
              TodoDetailView.put_except; TodoDetailView.delete_except ] →
  ∃ msg, dispatch clauses e s =
         (Ok (mkResponse (Failure msg) (failure_status (exn_class_of e))), s).
Proof.
  rewrite !elem_of_cons, elem_of_nil.
  destruct e as [[| |name] msg]; intros [->|[->|[->|[->|[]]]]]; simpl; eauto.
Qed.

Lemma run_try_except (op : operation) :
  ∃ clauses, run (S:=S) op = try_except (run_try op) clauses
    ∧ clauses ∈ [ @TodoListView.get_except S; TodoListView.post_except;
                  TodoDetailView.put_except; TodoDetailView.delete_except ].
Proof. destruct op; eexists; (split; [reflexivity|set_solver]). Qed.

Lemma run_never_raises (op : operation) : never_raises (run (S:=S) op).
Proof.
  destruct (run_try_except op) as (clauses & -> & Hin).
  apply try_except_never_raises. intros e s.
  destruct (dispatch_failure clauses e s Hin) as [msg ->]. eauto.
Qed.

Lemma run_returns_envelope (op : operation) : returns envelope_ok (run (S:=S) op).
Proof.
  destruct op; cbn [run];
    (apply returns_try_except;
     [ | unfold TodoListView.get_except, TodoListView.post_except,
           TodoDetailView.put_except, TodoDetailView.delete_except;
         repeat (apply Forall_cons_2;
                 [intros e; apply returns_failure; envelope|]);
         apply Forall_nil_2 ]).
  - unfold TodoListView.get_try. returns_envelope.
  - unfold TodoListView.post_try. returns_envelope.
  - unfold TodoDetailView.put_try. returns_envelope.
  - unfold TodoDetailView.delete_try. returns_envelope.
Qed.

Lemma run_raised (op : operation) (s s' : S) (e : exn) :
  run_try op s = (Raise e, s') →
  run op s =
  (Ok (mkResponse (Failure (failure_message op (exn_class_of e)))
                  (failure_status (exn_class_of e))), s').
Proof.
  intros Hraise.
  destruct op; cbn [run run_try] in *;
    unfold TodoListView.get, TodoListView.post, TodoDetailView.put,
      TodoDetailView.delete, try_except;
    rewrite Hraise; by destruct e as [[| |name] msg].
Qed.

End failures.

(** C7. Each of the four views, over any store and on any input: it returns
    a response and never raises; the response is a success with 200 or 201,
    or the envelope with [success] false, an error message and one of 400,
    404, 500, 503; and when its [try] block raises an exception the response
    is the envelope with the status and the message of the exception's
    class (503 for a connection failure, 500 for an operation failure and
    for anything else), the same for every exception of the class. *)
Theorem C7_failures_are_caught {S : Type} `{!Store S} (op : operation) :
  never_raises (run (S:=S) op)
  ∧ returns envelope_ok (run (S:=S) op)
  ∧ (∀ (s s' : S) (e : exn),
       run_try op s = (Raise e, s') →
       run op s =
       (Ok (mkResponse (Failure (failure_message op (exn_class_of e)))
                       (failure_status (exn_class_of e))), s'))
  ∧ failure_status ConnectionFailure = 503
  ∧ failure_status OperationFailure = 500
  ∧ (∀ name, failure_status (OtherError name) = 500).
Proof.
  split_and!; try done.
  - apply run_never_raises.
  - apply run_returns_envelope.
  - apply run_raised.
Qed.

Lemma C7_failures_are_caught_witness :
  run OpList Sample.milk_down =
  (Ok (mkResponse (Failure connection_failed) HTTP_503_SERVICE_UNAVAILABLE),
   Sample.milk).
Proof.
  apply (proj1 (proj2 (proj2 (C7_failures_are_caught OpList)))
           Sample.milk_down Sample.milk
           (mkExn ConnectionFailure "localhost:27017: timed out")).
  reflexivity.
Defined.

(** ** Update and the invariant *)

Section update_facts.
Import MemStore.

(** A [put] answered 200 on a quiet collection went through the update. *)
Lemma put_ok_inv data todo_id (s s' : state) (r : Response) :
  quiet s →
  TodoDetailView.put data todo_id s = (Ok r, s') → status r = HTTP_200_OK →
  ∃ o raw d,
    ObjectId_new todo_id = Ok o
    ∧ data_get_description data = Ok (VStr raw)
    ∧ List.find (has_id o) (docs s) = Some d
    ∧ s' = mkState
             (update_first o (λ d, <["description" := VStr (PyStr.strip raw)]> d)
                           (docs s)).1
             (next_oid s) [].
Proof.
  intros Hq Hput Hst.
  destruct (ObjectId_new todo_id) as [o|e] eqn:Hid.
  2:{ rewrite (put_invalid_id data todo_id e s Hid) in Hput.
      injection Hput as <- <-. done. }
  destruct (data_get_description data) as [v|e] eqn:Hd.
  2:{ unfold TodoDetailView.put, try_except, TodoDetailView.put_try, bind, lift in Hput.
      rewrite Hid, Hd in Hput. destruct e as [[| |name] msg];
        injection Hput as <- <-; done. }
  assert ((∃ raw, v = VStr raw) ∨ (∀ x, v ≠ VStr x)) as [[raw ->]|Hns].
  { destruct v; eauto. }
  2:{ rewrite (put_not_a_string data v todo_id o s Hid Hd Hns) in Hput.
      injection Hput as <- <-. done. }
  destruct (decide (PyStr.strip raw = "")) as [Hempty|Hne].
  { rewrite (put_description_required data raw todo_id o s Hid Hd Hempty) in Hput.
    injection Hput as <- <-. done. }
  destruct (decide (MAX_DESCRIPTION_LENGTH < String.length (PyStr.strip raw))%nat)
    as [Hlong|Hlen].
  { rewrite (put_description_too_long data raw todo_id o s Hid Hd Hlong) in Hput.
    injection Hput as <- <-. done. }
  apply Nat.nlt_ge in Hlen.
  destruct (List.find (has_id o) (docs s)) as [d|] eqn:Hfind.
  2:{ rewrite (put_not_found data raw todo_id o s None s Hid Hd Hne Hlen) in Hput.
      - injection Hput as <- <-. done.
      - rewrite mem_find_one_quiet by done. by rewrite Hfind.
      - done. }
  rewrite (put_updated data raw todo_id o s d Hq Hid Hd Hne Hlen Hfind) in Hput.
  injection Hput as _ <-. by exists o, raw, d.
Qed.

End update_facts.

(** C8. A [put] answered 200 on a quiet collection replaces one document,
    the first with the requested id, by itself with [description] set to the
    trimmed text. The collection keeps its length and its order; in every
    document every field other than [description] is as before ([_id],
    [created_at] and [completed] among them); a document with another id is
    as before. *)
Theorem C8_update_frame
    (data : request_data) (todo_id : string) (s s' : MemStore.state)
    (r : Response) :
  MemStore.quiet s →
  TodoDetailView.put data todo_id s = (Ok r, s') → status r = HTTP_200_OK →
  ∃ (o : ObjectId) (raw : string) (j : nat) (target : doc),
    ObjectId_new todo_id = Ok o
    ∧ data_get_description data = Ok (VStr raw)
    ∧ MemStore.docs s !! j = Some target
    ∧ MemStore.doc_id target = Some o
    ∧ MemStore.docs s' =
      <[j := <["description" := VStr (PyStr.strip raw)]> target]> (MemStore.docs s)
    ∧ length (MemStore.docs s') = length (MemStore.docs s)
    ∧ (∀ (i : nat) (d d' : doc),
         MemStore.docs s !! i = Some d → MemStore.docs s' !! i = Some d' →
         (∀ k, k ≠ "description" → d' !! k = d !! k)
         ∧ (MemStore.doc_id d ≠ Some o → d' = d)).
Proof.
  intros Hq Hput Hst.
  destruct (put_ok_inv data todo_id s s' r Hq Hput Hst)
    as (o & raw & target & Hid & Hd & Hfind & ->).
  destruct (update_first_found o
              (λ d, <["description" := VStr (PyStr.strip raw)]> d)
              (MemStore.docs s) target Hfind) as (j & Hj & Hl & _).
  destruct (find_Some_has_id _ _ _ Hfind) as [Htid _].
  exists o, raw, j, target. cbn [MemStore.docs]. rewrite Hl.
  split_and!; try done.
  - by rewrite length_insert.
  - intros i d d' Hi Hi'. destruct (decide (i = j)) as [->|Hij].
    + rewrite list_lookup_insert_eq in Hi' by (by eapply lookup_lt_Some).
      assert (d = target) as -> by congruence. injection Hi' as <-.
      split; [|done]. intros k Hk. by rewrite lookup_insert_ne.
    + rewrite list_lookup_insert_ne in Hi' by done.
      assert (d' = d) as -> by congruence. done.
Qed.

Lemma C8_update_frame_witness :
  ∃ (o : ObjectId) (raw : string) (j : nat) (target : doc),
    ObjectId_new Sample.milk_id = Ok o
    ∧ data_get_description (Sample.body_of (VStr "buy oat milk")) = Ok (VStr raw)
    ∧ MemStore.docs Sample.milk_and_eggs !! j = Some target
    ∧ MemStore.doc_id target = Some o
    ∧ MemStore.docs
        (TodoDetailView.put (Sample.body_of (VStr "buy oat milk")) Sample.milk_id
           Sample.milk_and_eggs).2 =
      <[j := <["description" := VStr (PyStr.strip raw)]> target]>
        (MemStore.docs Sample.milk_and_eggs)
    ∧ length (MemStore.docs
        (TodoDetailView.put (Sample.body_of (VStr "buy oat milk")) Sample.milk_id
           Sample.milk_and_eggs).2) = length (MemStore.docs Sample.milk_and_eggs)
    ∧ (∀ (i : nat) (d d' : doc),
         MemStore.docs Sample.milk_and_eggs !! i = Some d →
         MemStore.docs
           (TodoDetailView.put (Sample.body_of (VStr "buy oat milk"))
              Sample.milk_id Sample.milk_and_eggs).2 !! i = Some d' →
         (∀ k, k ≠ "description" → d' !! k = d !! k)
         ∧ (MemStore.doc_id d ≠ Some o → d' = d)).
Proof.
  destruct (TodoDetailView.put (Sample.body_of (VStr "buy oat milk"))
              Sample.milk_id Sample.milk_and_eggs) as [[r|e] s'] eqn:Hput;
    [|by vm_compute in Hput].
  apply (C8_update_frame (Sample.body_of (VStr "buy oat milk")) Sample.milk_id
           Sample.milk_and_eggs s' r).
  - reflexivity.
  - exact Hput.
  - vm_compute in Hput. by injection Hput as <- _.
Defined.

(** Every handler of an [except] list is a [failure], which leaves the
    state alone. *)
Ltac clauses_preserve :=
  repeat (apply Forall_cons_2; [intros e; apply preserves_failure|]);
  apply Forall_nil_2.

Section invariant.
Import MemStore.

Lemma arrive_ok {A} (op : M state A) :
  preserves collection_ok op → preserves collection_ok (arrive op).
Proof.
  intros Hop s Hs. unfold arrive.
  destruct (pending s) as [|[|e|o] rest]; [by apply Hop|by apply Hop|done|].
  apply Hop. unfold collection_ok in *. simpl. by apply remove_first_Forall.
Qed.

Lemma mem_find_sort_ok key direction :
  preserves collection_ok (find_sort key direction).
Proof. apply arrive_ok. by intros s. Qed.

Lemma mem_find_one_ok o : preserves collection_ok (find_one o).
Proof. apply arrive_ok. by intros s. Qed.

Lemma mem_insert_one_ok (d : doc) x :
  d !! "description" = Some (VStr x) → description_ok x →
  preserves collection_ok (insert_one d).
Proof.
  intros Hd Hx. apply arrive_ok. intros s Hs. cbn beta zeta.
  destruct (existsb (has_id _) (docs s)); [done|].
  unfold collection_ok in *. simpl.
  apply Forall_app. split; [done|]. apply Forall_singleton.
  exists x. split; [|done].
  rewrite lookup_insert_ne by done. by rewrite lookup_fmap, Hd.
Qed.

Lemma mem_update_one_set_ok o (fields : doc) x :
  fields !! "description" = Some (VStr x) → description_ok x →
  preserves collection_ok (update_one_set o fields).
Proof.
  intros Hf Hx. apply arrive_ok. intros s Hs. cbn beta zeta.
  pose proof (update_first_Forall doc_ok o
                (λ d, (bson_value <$> fields) ∪ d) (docs s)) as Hu.
  destruct (update_first _ _ _) as [l n]. unfold collection_ok in *. simpl in *.
  apply Hu; [|done]. intros d _. exists x. split; [|done].
  apply lookup_union_Some_l. by rewrite lookup_fmap, Hf.
Qed.

Lemma mem_delete_one_ok o : preserves collection_ok (delete_one o).
Proof.
  apply arrive_ok. intros s Hs. cbn beta zeta.
  pose proof (remove_first_Forall doc_ok o (docs s) Hs) as Hr.
  by destruct (remove_first _ _) as [l n].
Qed.

Lemma strip_method_Ok v description :
  strip_method v = Ok description → ∃ raw, description = PyStr.strip raw.
Proof. destruct v; try done. intros [= <-]. eauto. Qed.

Lemma get_preserves_ok : preserves collection_ok TodoListView.get.
Proof.
  apply preserves_try_except; [|clauses_preserve].
  apply preserves_bind; [apply mem_find_sort_ok|]. intros cursor.
  apply preserves_bind; [apply preserves_lift|]. intros todos.
  apply preserves_ret.
Qed.

Lemma post_preserves_ok data now :
  preserves collection_ok (TodoListView.post data now).
Proof.
  apply preserves_try_except; [|clauses_preserve].
  apply preserves_bind_lift. intros v _.
  apply preserves_bind_lift. intros description [raw ->]%strip_method_Ok.
  destruct (String.length _ =? 0)%nat eqn:H0; [apply preserves_failure|].
  destruct (MAX_DESCRIPTION_LENGTH <? _)%nat eqn:Hlen; [apply preserves_failure|].
  apply preserves_bind.
  { eapply mem_insert_one_ok; [|by apply accepted_description_ok].
    by simplify_map_eq. }
  intros inserted_id. apply preserves_bind; [apply mem_find_one_ok|].
  intros created. apply preserves_ret.
Qed.

Lemma put_preserves_ok data todo_id :
  preserves collection_ok (TodoDetailView.put data todo_id).
Proof.
  apply preserves_try_except; [|clauses_preserve].
  unfold TodoDetailView.put_try.
  destruct (ObjectId_new todo_id) as [o|e]; [|apply preserves_failure].
  apply preserves_bind_lift. intros v _.
  apply preserves_bind_lift. intros description [raw ->]%strip_method_Ok.
  destruct (String.length _ =? 0)%nat eqn:H0; [apply preserves_failure|].
  destruct (MAX_DESCRIPTION_LENGTH <? _)%nat eqn:Hlen; [apply preserves_failure|].
  apply preserves_bind; [apply mem_find_one_ok|]. intros existing.
  destruct (falsy existing); [apply preserves_failure|].
  apply preserves_bind.
  { eapply mem_update_one_set_ok; [|by apply accepted_description_ok].
    by simplify_map_eq. }
  intros n. apply preserves_bind; [apply mem_find_one_ok|].
  intros updated. apply preserves_ret.
Qed.

Lemma delete_preserves_ok todo_id :
  preserves collection_ok (TodoDetailView.delete todo_id).
Proof.
  apply preserves_try_except; [|clauses_preserve].
  unfold TodoDetailView.delete_try.
  destruct (ObjectId_new todo_id) as [o|e]; [|apply preserves_failure].
  apply preserves_bind; [apply mem_find_one_ok|]. intros existing.
  destruct (falsy existing); [apply preserves_failure|].
  apply preserves_bind; [apply mem_delete_one_ok|]. intros n.
  destruct (n =? 0); [apply preserves_failure|apply preserves_ret].
Qed.

Lemma run_preserves_ok (op : operation) : preserves collection_ok (run op).
Proof.
  destruct op; cbn [run].
  - apply get_preserves_ok.
  - apply post_preserves_ok.
  - apply put_preserves_ok.
  - apply delete_preserves_ok.
Qed.

End invariant.

(** ** Well-formedness of the collection is kept too *)

Section wf_facts.
Import MemStore.

Lemma id_below_mono n m (d : doc) : n ≤ m → id_below n d → id_below m d.
Proof. unfold id_below. destruct (doc_id d); [lia|done]. Qed.

Lemma remove_first_ids o (l : list doc) x :
  x ∈ doc_id <$> (remove_first o l).1 → x ∈ doc_id <$> l.
Proof.
  induction l as [|d l IH]; [done|]. cbn [remove_first].
  destruct (has_id o d); cbn [fst].
  - rewrite fmap_cons, elem_of_cons. auto.
  - destruct (remove_first o l) as [l' n]. cbn [fst] in *.
    rewrite !fmap_cons, !elem_of_cons. intros [->|Hx]; auto.
Qed.

Lemma remove_first_NoDup o (l : list doc) :
  NoDup (doc_id <$> l) → NoDup (doc_id <$> (remove_first o l).1).
Proof.
  induction l as [|d l IH]; [done|].
  rewrite fmap_cons, NoDup_cons. intros [Hd Hnd]. cbn [remove_first].
  destruct (has_id o d); cbn [fst]; [done|].
  specialize (IH Hnd). pose proof (remove_first_ids o l (doc_id d)) as Hsub.
  destruct (remove_first o l) as [l' n]. cbn [fst] in *.
  rewrite fmap_cons, NoDup_cons. split; [|done]. intros Hin. by apply Hd, Hsub.
Qed.

Lemma update_first_ids o (f : doc → doc) (l : list doc) :
  (∀ d, doc_id (f d) = doc_id d) →
  doc_id <$> (update_first o f l).1 = doc_id <$> l.
Proof.
  intros Hf. induction l as [|d l IH]; [done|]. cbn [update_first].
  destruct (has_id o d); cbn [fst]; [by rewrite !fmap_cons, Hf|].
  destruct (update_first o f l) as [l' n]. cbn [fst] in *.
  by rewrite !fmap_cons, IH.
Qed.

Lemma arrive_wf {A} (op : M state A) :
  preserves wf op → preserves wf (arrive op).
Proof.
  intros Hop s Hs. unfold arrive.
  destruct (pending s) as [|[|e|o] rest]; [by apply Hop|by apply Hop|done|].
  apply Hop. destruct Hs as [Hb Hnd]. split; simpl.
  - by apply remove_first_Forall.
  - by apply remove_first_NoDup.
Qed.

Lemma mem_insert_one_wf (d : doc) : preserves wf (insert_one d).
Proof.
  apply arrive_wf. intros s [Hb Hnd]. cbn beta zeta.
  assert (Forall (id_below (next_oid s + 1)) (docs s)) as Hb'.
  { eapply Forall_impl; [exact Hb|]. intros d'. apply id_below_mono. lia. }
  destruct (existsb (has_id _) (docs s)); [by split|]. split; simpl.
  - apply Forall_app. split; [done|]. apply Forall_singleton.
    unfold id_below, doc_id. rewrite lookup_insert_eq. simpl. lia.
  - rewrite fmap_app. apply NoDup_app. split_and!; [done| |apply NoDup_singleton].
    intros x Hx. rewrite fmap_cons, list_elem_of_singleton.
    unfold doc_id at 1. rewrite lookup_insert_eq. intros ->.
    apply list_elem_of_fmap in Hx as (d' & Hd' & Hin).
    rewrite Forall_forall in Hb. specialize (Hb d' Hin).
    unfold id_below in Hb. rewrite <-Hd' in Hb. simpl in Hb. lia.
Qed.

Lemma mem_update_one_set_wf o (fields : doc) :
  fields !! "_id" = None → preserves wf (update_one_set o fields).
Proof.
  intros Hf. apply arrive_wf. intros s [Hb Hnd]. cbn beta zeta.
  assert (∀ d : doc, doc_id ((bson_value <$> fields) ∪ d) = doc_id d) as Hid.
  { intros d. unfold doc_id. rewrite lookup_union_r; [done|].
    by rewrite lookup_fmap, Hf. }
  pose proof (update_first_ids o _ (docs s) Hid) as Hids.
  pose proof (update_first_Forall (id_below (next_oid s)) o
                (λ d, (bson_value <$> fields) ∪ d) (docs s)) as Hu.
  destruct (update_first _ _ _) as [l n]. simpl in *. split; simpl.
  - apply Hu; [|done]. intros d. unfold id_below. by rewrite Hid.
  - by rewrite Hids.
Qed.

Lemma mem_delete_one_wf o : preserves wf (delete_one o).
Proof.
  apply arrive_wf. intros s [Hb Hnd]. cbn beta zeta.
  pose proof (remove_first_Forall (id_below (next_oid s)) o (docs s) Hb).
  pose proof (remove_first_NoDup o (docs s) Hnd).
  destruct (remove_first _ _) as [l n]. by split.
Qed.

(** Every view keeps the collection well formed, under any schedule. *)
Lemma run_preserves_wf (op : operation) : preserves wf (run op).
Proof.
  destruct op; cbn [run]; (apply preserves_try_except; [|clauses_preserve]).
  - apply preserves_bind; [apply arrive_wf; by intros s|]. intros cursor.
    apply preserves_bind; [apply preserves_lift|]. intros todos.
    apply preserves_ret.
  - apply preserves_bind; [apply preserves_lift|]. intros v.
    apply preserves_bind; [apply preserves_lift|]. intros description.
    destruct (String.length _ =? 0)%nat; [apply preserves_failure|].
    destruct (MAX_DESCRIPTION_LENGTH <? _)%nat; [apply preserves_failure|].
    apply preserves_bind; [apply mem_insert_one_wf|]. intros inserted_id.
    apply preserves_bind; [apply arrive_wf; by intros s|].
    intros created. apply preserves_ret.
  - unfold TodoDetailView.put_try.
    destruct (ObjectId_new todo_id) as [o|e]; [|apply preserves_failure].
    apply preserves_bind; [apply preserves_lift|]. intros v.
    apply preserves_bind; [apply preserves_lift|]. intros description.
    destruct (String.length _ =? 0)%nat; [apply preserves_failure|].
    destruct (MAX_DESCRIPTION_LENGTH <? _)%nat; [apply preserves_failure|].
    apply preserves_bind; [apply arrive_wf; by intros s|]. intros existing.
    destruct (falsy existing); [apply preserves_failure|].
    apply preserves_bind; [by apply mem_update_one_set_wf|]. intros n.
    apply preserves_bind; [apply arrive_wf; by intros s|].
    intros updated. apply preserves_ret.
  - unfold TodoDetailView.delete_try.
    destruct (ObjectId_new todo_id) as [o|e]; [|apply preserves_failure].
    apply preserves_bind; [apply arrive_wf; by intros s|]. intros existing.
    destruct (falsy existing); [apply preserves_failure|].
    apply preserves_bind; [apply mem_delete_one_wf|]. intros n.
    destruct (n =? 0); [apply preserves_failure|apply preserves_ret].
Qed.

End wf_facts.

(** C4. On the in-memory collection, with any schedule of faults and
    concurrent deletions pending: if every stored description is non-empty,
    not whitespace-only and at most 500 characters after trimming, the same
    holds after list, create, update or delete, on any input and whatever
    the answer. So it holds after any sequence of requests served from the
    empty collection: every document create or update wrote meets it. *)
Theorem C4_description_invariant :
  (∀ (op : operation) (s : MemStore.state),
     collection_ok s → collection_ok (run op s).2)
  ∧ (∀ (ops : list operation) (s : MemStore.state),
       MemStore.docs s = [] → collection_ok (serve ops s)).
Proof.
  split.
  - intros op s. apply run_preserves_ok.
  - intros ops s Hnil.
    assert (collection_ok s) as Hs.
    { unfold collection_ok. rewrite Hnil. constructor. }
    clear Hnil. revert s Hs. induction ops as [|op ops IH]; intros s Hs; [done|].
    simpl. apply IH. by apply run_preserves_ok.
Qed.

Lemma C4_description_invariant_witness :
  collection_ok
    (run (OpUpdate (Sample.body_of (VStr " buy oat milk ")) Sample.milk_id)
         Sample.milk_raced).2
  ∧ collection_ok
      (serve [OpCreate (Sample.body_of (VStr " buy milk ")) Sample.now;
              OpCreate (Sample.body_of (VStr "   ")) Sample.now;
              OpUpdate (Sample.body_of (VStr "buy oat milk")) Sample.milk_id;
              OpList]
             Sample.empty).
Proof.
  split.
  - apply (proj1 C4_description_invariant). apply Forall_singleton.
    exists "buy milk". split; [reflexivity|].
    split_and!; [discriminate|reflexivity|vm_compute; lia].
  - apply (proj2 C4_description_invariant). reflexivity.
Defined.

(** C9 (amended). The formatter is a function of its argument alone. For
    [None] and for a document with no field it returns [None]. For a
    document with at least one field it returns a mapping in which [_id], if
    present, is [str] of the stored value (its 24-digit form for an
    ObjectId), [created_at], if present and a datetime, is its ISO-8601
    text, and every other field is as in the input. Both views define the
    same function. Run on heap objects it allocates the result and leaves
    every object that existed, its argument included, unchanged. *)
Theorem C9_format_todo :
  TodoListView._format_todo None = None
  ∧ TodoListView._format_todo (Some ∅) = None
  ∧ (∀ t : doc, t ≠ ∅ →
       ∃ f : doc, TodoListView._format_todo (Some t) = Some f
         ∧ f !! "_id" = (λ v, VStr (py_str v)) <$> t !! "_id"
         ∧ f !! "created_at" =
             (λ v, match v with VDatetime d => VStr (isoformat d) | _ => v end)
               <$> t !! "created_at"
         ∧ ∀ k, k ≠ "_id" → k ≠ "created_at" → f !! k = t !! k)
  ∧ (∀ todo, TodoDetailView._format_todo todo = TodoListView._format_todo todo)
  ∧ (∀ (h : Heap.heap) (todo : option Heap.loc),
       let '(h', r) := TodoListView._format_todo_heap h todo in
       (∀ l, is_Some (h !! l) → h' !! l = h !! l)
       ∧ (l ← r; h' !! l) = TodoListView._format_todo (l ← todo; h !! l)
       ∧ (∀ l', r = Some l' → h !! l' = None)).
Proof.
  split_and!; try done.
  - apply format_todo_fields.
  - apply format_todo_heap_spec.
Qed.

Lemma C9_format_todo_witness :
  ∃ f : doc,
    TodoListView._format_todo (Some (stored_todo "buy milk" Sample.now (OID 1)))
    = Some f
    ∧ f !! "_id" = Some (VStr "000000000000000000000001")
    ∧ f !! "created_at" = Some (VStr "2024-05-01T10:20:30.123000")
    ∧ ∀ k, k ≠ "_id" → k ≠ "created_at" →
           f !! k = stored_todo "buy milk" Sample.now (OID 1) !! k.
Proof.
  apply (proj1 (proj2 (proj2 C9_format_todo))
           (stored_todo "buy milk" Sample.now (OID 1))).
  apply insert_non_empty.
Defined.

(** C9 as first stated fails on a document that is present and has no
    field: the formatter returns [None] for it, not a mapping. *)
Lemma C9_empty_document_counterexample :
  ¬ ∃ f : doc, TodoListView._format_todo (Some ∅) = Some f.
Proof. intros [f Hf]. vm_compute in Hf. discriminate. Qed.

(** ** A session *)

(** POST, PUT, DELETE and DELETE again of the same todo: 201, 200 with the
    new description under the same id and creation time, 200, 404. *)
Example create_update_delete_delete :
  let '(r1, s1) :=
    TodoListView.post (Sample.body_of (VStr "buy milk")) Sample.now Sample.empty in
  let '(r2, s2) :=
    TodoDetailView.put (Sample.body_of (VStr "buy oat milk")) Sample.milk_id s1 in
  let '(r3, s3) := TodoDetailView.delete Sample.milk_id s2 in
  let '(r4, s4) := TodoDetailView.delete Sample.milk_id s3 in
  ∃ created updated : doc,
    r1 = Ok (mkResponse (SuccessItem (Some created) "Todo created successfully")
                        HTTP_201_CREATED)
    ∧ r2 = Ok (mkResponse (SuccessItem (Some updated) "Todo updated successfully")
                          HTTP_200_OK)
    ∧ created !! "completed" = Some (VBool false)
    ∧ updated !! "description" = Some (VStr "buy oat milk")
    ∧ updated !! "_id" = created !! "_id"
    ∧ updated !! "created_at" = created !! "created_at"
    ∧ r3 = Ok (mkResponse (SuccessMessage "Todo deleted successfully") HTTP_200_OK)
    ∧ r4 = Ok (mkResponse (Failure "Todo not found.") HTTP_404_NOT_FOUND)
    ∧ MemStore.docs s4 = [].
Proof. vm_compute. do 2 eexists. split_and!; reflexivity. Qed.

(** * Further properties of the views *)

(** ** What each view can answer *)

Ltac shape :=
  solve [ left; split; [reflexivity | eauto]
        | right; eexists; split; [reflexivity | set_solver] ].

Ltac returns_shape :=
  repeat first
    [ apply returns_failure; shape
    | apply returns_ret; shape
    | apply returns_bind; intros ?
    | match goal with
      | |- returns _ (if ?b then _ else _) => destruct b
      | |- returns _ (match ?x with _ => _ end) => destruct x
      end ].

Ltac clauses_shape :=
  repeat (apply Forall_cons_2; [intros e; apply returns_failure; shape|]);
  apply Forall_nil_2.

(** X1. Over any store and on any input, each view answers only what its
    code can build: [get] 200 with the list and its length as count, or 500
    or 503; [post] 201 with the item, or 400, 500 or 503, never 200 or 404;
    [put] 200 with the item, or 400, 404, 500 or 503; [delete] 200 with the
    confirmation message, or 400, 404, 500 or 503. *)
Theorem X1_view_answers {S : Type} `{!Store S} :
  returns Scenario.get_shape (TodoListView.get (S:=S))
  ∧ (∀ data now, returns Scenario.post_shape (TodoListView.post (S:=S) data now))
  ∧ (∀ data todo_id,
       returns Scenario.put_shape (TodoDetailView.put (S:=S) data todo_id))
  ∧ (∀ todo_id, returns Scenario.delete_shape (TodoDetailView.delete (S:=S) todo_id)).
Proof.
  split_and!; intros.
  - apply returns_try_except; [|unfold TodoListView.get_except; clauses_shape].
    unfold TodoListView.get_try. returns_shape.
  - apply returns_try_except; [|unfold TodoListView.post_except; clauses_shape].
    unfold TodoListView.post_try. returns_shape.
  - apply returns_try_except; [|unfold TodoDetailView.put_except; clauses_shape].
    unfold TodoDetailView.put_try. returns_shape.
  - apply returns_try_except; [|unfold TodoDetailView.delete_except; clauses_shape].
    unfold TodoDetailView.delete_try. returns_shape.
Qed.

Lemma X1_view_answers_witness :
  Scenario.get_shape
    (mkResponse (Failure connection_failed) HTTP_503_SERVICE_UNAVAILABLE).
Proof.
  apply (proj1 X1_view_answers Sample.milk_down _ Sample.milk). reflexivity.
Defined.

(** ** A document without [_id] in the cursor *)

Lemma get_loop_missing_id cursor todos (t : doc) :
  t ∈ cursor → t !! "_id" = None →
  TodoListView.get_loop cursor todos = Raise (mkExn (OtherError "KeyError") "'_id'").
Proof.
  intros Hin Ht. revert todos.
  induction cursor as [|t' cursor IH]; intros todos; [by apply elem_of_nil in Hin|].
  simpl. unfold TodoListView.get_step at 1.
  destruct (t' !! "_id") as [v|] eqn:Hv; [|done].
  apply IH. apply elem_of_cons in Hin as [->|Hin]; [congruence|done].
Qed.

(** X4. [get] indexes [todo['_id']] without a membership test: if the
    cursor yields a document that has no [_id], the [KeyError] is caught by
    the catch-all clause and the whole list is answered 500, whatever the
    other documents are. The formatter of the other views tests for the key
    and passes such a document through with its fields. *)
Theorem X4_get_document_without_id
    {S : Type} `{!Store S} (s s1 : S) (cursor : list doc) (t : doc) :
  find_sort "created_at" (-1)%Z s = (Ok cursor, s1) →
  t ∈ cursor → t !! "_id" = None → t ≠ ∅ →
  TodoListView.get s =
    (Ok (mkResponse
           (Failure "An unexpected error occurred while retrieving todos.")
           HTTP_500_INTERNAL_SERVER_ERROR), s1)
  ∧ ∃ f : doc, TodoListView._format_todo (Some t) = Some f
               ∧ f !! "_id" = None
               ∧ ∀ k, k ≠ "created_at" → f !! k = t !! k.
Proof.
  intros Hfind Hin Hid Hne. split.
  - unfold TodoListView.get, try_except, TodoListView.get_try, bind, lift.
    by rewrite Hfind, (get_loop_missing_id cursor [] t Hin Hid).
  - destruct (format_todo_fields t Hne) as (f & Hf & Fid & _ & Fother).
    exists f. rewrite Hid in Fid. split_and!; [done..|].
    intros k Hk. destruct (decide (k = "_id")) as [->|Hk'].
    + by rewrite Fid, Hid.
    + by apply Fother.
Qed.

Lemma X4_get_document_without_id_witness :
  TodoListView.get Scenario.no_id =
    (Ok (mkResponse
           (Failure "An unexpected error occurred while retrieving todos.")
           HTTP_500_INTERNAL_SERVER_ERROR), Scenario.no_id)
  ∧ ∃ f : doc,
      TodoListView._format_todo (Some {[ "description" := VStr "orphan" ]}) = Some f
      ∧ f !! "_id" = None
      ∧ ∀ k, k ≠ "created_at" →
             f !! k = ({[ "description" := VStr "orphan" ]} : doc) !! k.
Proof.
  apply (X4_get_document_without_id Scenario.no_id Scenario.no_id
           [ {[ "description" := VStr "orphan" ]} ]).
  - reflexivity.
  - apply list_elem_of_singleton. reflexivity.
  - reflexivity.
  - apply insert_non_empty.
Defined.

(** ** Requests that race with another client or lose the connection *)

Section reread_facts.
Context {S : Type} `{!Store S}.

Lemma post_reread data raw now (s s1 : S) (o : ObjectId) :
  data_get_description data = Ok (VStr raw) →
  PyStr.strip raw ≠ "" →
  (String.length (PyStr.strip raw) ≤ MAX_DESCRIPTION_LENGTH)%nat →
  insert_one ({[ "description" := VStr (PyStr.strip raw);
                 "created_at" := VDatetime now;
                 "completed" := VBool false ]} : doc) s = (Ok o, s1) →
  TodoListView.post data now s =
  match find_one o s1 with
  | (Ok created, s2) =>
      (Ok (mkResponse (SuccessItem (TodoListView._format_todo created)
                                   "Todo created successfully")
                      HTTP_201_CREATED), s2)
  | (Raise e, s2) =>
      (Ok (mkResponse
             (Failure (failure_message (OpCreate data now) (exn_class_of e)))
             (failure_status (exn_class_of e))), s2)
  end.
Proof.
  intros Hd Hne Hlen Hins.
  unfold TodoListView.post, try_except, TodoListView.post_try, bind, lift.
  rewrite Hd. cbn [strip_method].
  destruct (String.length (PyStr.strip raw) =? 0)%nat eqn:H0.
  { by apply length_zero_empty in H0. }
  apply Nat.ltb_ge in Hlen. rewrite Hlen, Hins.
  destruct (find_one o s1) as [[created|e] s2]; [done|].
  by destruct e as [[| |name] msg].
Qed.

Lemma put_reread data raw todo_id (o : ObjectId) (s s1 s2 : S) existing n :
  ObjectId_new todo_id = Ok o →
  data_get_description data = Ok (VStr raw) →
  PyStr.strip raw ≠ "" →
  (String.length (PyStr.strip raw) ≤ MAX_DESCRIPTION_LENGTH)%nat →
  find_one o s = (Ok existing, s1) → falsy existing = false →
  update_one_set o {[ "description" := VStr (PyStr.strip raw) ]} s1 = (Ok n, s2) →
  TodoDetailView.put data todo_id s =
  match find_one o s2 with
  | (Ok updated, s3) =>
      (Ok (mkResponse (SuccessItem (TodoDetailView._format_todo updated)
                                   "Todo updated successfully")
                      HTTP_200_OK), s3)
  | (Raise e, s3) =>
      (Ok (mkResponse
             (Failure (failure_message (OpUpdate data todo_id) (exn_class_of e)))
             (failure_status (exn_class_of e))), s3)
  end.
Proof.
  intros Hid Hd Hne Hlen Hfind Hex Hupd.
  unfold TodoDetailView.put, try_except, TodoDetailView.put_try, bind, lift.
  rewrite Hid, Hd. cbn [strip_method].
  destruct (String.length (PyStr.strip raw) =? 0)%nat eqn:H0.
  { by apply length_zero_empty in H0. }
  apply Nat.ltb_ge in Hlen. rewrite Hlen, Hfind, Hex, Hupd.
  destruct (find_one o s2) as [[updated|e] s3]; [done|].
  by destruct e as [[| |name] msg].
Qed.

End reread_facts.

(** X3. [post] re-reads the document it has just inserted and does not test
    the result: over any store, if the insert succeeds and [find_one] then
    returns nothing (another client deleted the todo in between), the answer
    is still 201 "Todo created successfully", with [data] absent. *)
Theorem X3_create_reread_finds_nothing
    {S : Type} `{!Store S} data raw now (s s1 s2 : S) (o : ObjectId) :
  data_get_description data = Ok (VStr raw) →
  PyStr.strip raw ≠ "" →
  (String.length (PyStr.strip raw) ≤ 500)%nat →
  insert_one ({[ "description" := VStr (PyStr.strip raw);
                 "created_at" := VDatetime now;
                 "completed" := VBool false ]} : doc) s = (Ok o, s1) →
  find_one o s1 = (Ok None, s2) →
  TodoListView.post data now s =
  (Ok (mkResponse (SuccessItem None "Todo created successfully")
                  HTTP_201_CREATED), s2).
Proof.
  intros Hd Hne Hlen Hins Hfind.
  by rewrite (post_reread data raw now s s1 o Hd Hne Hlen Hins), Hfind.
Qed.

Lemma X3_create_reread_finds_nothing_witness :
  TodoListView.post (Sample.body_of (VStr "buy milk")) Sample.now
    Scenario.empty_raced =
  (Ok (mkResponse (SuccessItem None "Todo created successfully")
                  HTTP_201_CREATED), MemStore.mkState [] 2 []).
Proof.
  apply (X3_create_reread_finds_nothing (Sample.body_of (VStr "buy milk"))
           "buy milk" Sample.now Scenario.empty_raced
           (MemStore.mkState [stored_todo "buy milk" Sample.now (OID 1)] 2
                             [MemStore.ConcurrentDelete (OID 1)])
           (MemStore.mkState [] 2 []) (OID 1)).
  - reflexivity.
  - vm_compute. discriminate.
  - vm_compute. lia.
  - vm_compute. reflexivity.
  - vm_compute. reflexivity.
Defined.

(** X2. [put] checks that the document exists, updates without upsert, and
    re-reads without testing the result: over any store, if the document is
    found, the update returns, and the re-read then finds nothing, the
    answer is 200 "Todo updated successfully" with [data] absent, not 404. *)
Theorem X2_update_reread_finds_nothing
    {S : Type} `{!Store S} data raw todo_id (o : ObjectId) (s s1 s2 s3 : S)
    (existing : doc) (n : N) :
  ObjectId_new todo_id = Ok o →
  data_get_description data = Ok (VStr raw) →
  PyStr.strip raw ≠ "" →
  (String.length (PyStr.strip raw) ≤ 500)%nat →
  find_one o s = (Ok (Some existing), s1) → existing ≠ ∅ →
  update_one_set o {[ "description" := VStr (PyStr.strip raw) ]} s1 = (Ok n, s2) →
  find_one o s2 = (Ok None, s3) →
  TodoDetailView.put data todo_id s =
  (Ok (mkResponse (SuccessItem None "Todo updated successfully") HTTP_200_OK), s3).
Proof.
  intros Hid Hd Hne Hlen Hfind Hex%falsy_Some_false Hupd Hre.
  by rewrite (put_reread data raw todo_id o s s1 s2 (Some existing) n
                Hid Hd Hne Hlen Hfind Hex Hupd), Hre.
Qed.

Lemma X2_update_reread_finds_nothing_witness :
  TodoDetailView.put (Sample.body_of (VStr "buy oat milk")) Sample.milk_id
    Sample.milk_raced =
  (Ok (mkResponse (SuccessItem None "Todo updated successfully") HTTP_200_OK),
   MemStore.mkState [] 2 []).
Proof.
  apply (X2_update_reread_finds_nothing (Sample.body_of (VStr "buy oat milk"))
           "buy oat milk" Sample.milk_id (OID 1) Sample.milk_raced
           (MemStore.mkState [stored_todo "buy milk" Sample.now (OID 1)] 2
                             [MemStore.ConcurrentDelete (OID 1)])
           (MemStore.mkState [] 2 []) (MemStore.mkState [] 2 [])
           (stored_todo "buy milk" Sample.now (OID 1)) 0).
  - reflexivity.
  - reflexivity.
  - vm_compute. discriminate.
  - vm_compute. lia.
  - vm_compute. reflexivity.
  - apply insert_non_empty.
  - vm_compute. reflexivity.
  - vm_compute. reflexivity.
Defined.

Section schedule_facts.
Import MemStore.

Lemma mem_insert_one_step (d : doc) l n rest :
  Forall (id_below n) l →
  insert_one d (mkState l n (Quiet :: rest)) =
  (Ok (OID n),
   mkState (l ++ [<["_id" := VObjectId (OID n)]> (bson_value <$> d)])%list
           (n + 1) rest).
Proof.
  intros Hb. cbn [insert_one mem_store]. unfold mem_insert_one, arrive.
  cbn [pending docs next_oid].
  by rewrite (existsb_find_none _ _ (find_fresh _ _ Hb)).
Qed.

Lemma mem_update_description_step o x l n rest d :
  List.find (has_id o) l = Some d →
  ∃ j, l !! j = Some d
    ∧ update_one_set o {[ "description" := VStr x ]} (mkState l n (Quiet :: rest))
      = (Ok 1, mkState (<[j := <["description" := VStr x]> d]> l) n rest).
Proof.
  intros Hfind.
  destruct (update_first_found o (λ d, <["description" := VStr x]> d) l d Hfind)
    as (j & Hj & Hl & Hn).
  exists j. split; [done|].
  cbn [update_one_set mem_store]. unfold mem_update_one_set, arrive.
  cbn [pending docs next_oid]. rewrite map_fmap_singleton. cbn [bson_value].
  rewrite (update_first_ext o (λ d0, {["description" := VStr x]} ∪ d0)
             (λ d0, <["description" := VStr x]> d0)).
  2:{ intros d0. symmetry. apply insert_union_singleton_l. }
  destruct (update_first o _ l) as [l' n']. simpl in *. by subst.
Qed.

End schedule_facts.

(** X10. [post] does not undo the insert when the re-read fails: on the
    in-memory collection, if the insert goes through and the [find_one] that
    follows raises, the client is answered with the error envelope of the
    exception's class (503 for a connection failure, 500 otherwise) while
    the new todo is in the collection. *)
Theorem X10_create_is_not_rolled_back
    (l : list doc) (n : N) (e : exn) (data : request_data) (raw : string)
    (now : datetime) :
  Forall (MemStore.id_below n) l →
  data_get_description data = Ok (VStr raw) →
  PyStr.strip raw ≠ "" →
  (String.length (PyStr.strip raw) ≤ 500)%nat →
  TodoListView.post data now
    (MemStore.mkState l n [MemStore.Quiet; MemStore.Fault e]) =
  (Ok (mkResponse
         (Failure (failure_message (OpCreate data now) (exn_class_of e)))
         (failure_status (exn_class_of e))),
   MemStore.mkState (l ++ [stored_todo (PyStr.strip raw) now (OID n)])%list
                    (n + 1) []).
Proof.
  intros Hb Hd Hne Hlen.
  by rewrite (post_reread data raw now _ _ (OID n) Hd Hne Hlen
                (mem_insert_one_step _ l n [MemStore.Fault e] Hb)).
Qed.

Lemma X10_create_is_not_rolled_back_witness :
  TodoListView.post (Sample.body_of (VStr " buy milk ")) Sample.now
    Scenario.empty_reread_down =
  (Ok (mkResponse (Failure connection_failed) HTTP_503_SERVICE_UNAVAILABLE),
   Sample.milk).
Proof.
  apply (X10_create_is_not_rolled_back [] 1 Scenario.timed_out
           (Sample.body_of (VStr " buy milk ")) " buy milk " Sample.now).
  - constructor.
  - reflexivity.
  - vm_compute. discriminate.
  - vm_compute. lia.
Defined.

(** X11. [put] does not undo the update when the re-read fails: on the
    in-memory collection, if the document is found, the update goes through
    and the [find_one] that follows raises, the client is answered with the
    error envelope of the exception's class while the stored description has
    already been replaced. *)
Theorem X11_update_is_not_rolled_back
    (l : list doc) (n : N) (e : exn) (data : request_data) (raw : string)
    (todo_id : string) (o : ObjectId) (d : doc) :
  ObjectId_new todo_id = Ok o →
  data_get_description data = Ok (VStr raw) →
  PyStr.strip raw ≠ "" →
  (String.length (PyStr.strip raw) ≤ 500)%nat →
  List.find (MemStore.has_id o) l = Some d →
  ∃ j : nat,
    l !! j = Some d
    ∧ TodoDetailView.put data todo_id
        (MemStore.mkState l n [MemStore.Quiet; MemStore.Quiet; MemStore.Fault e]) =
      (Ok (mkResponse
             (Failure (failure_message (OpUpdate data todo_id) (exn_class_of e)))
             (failure_status (exn_class_of e))),
       MemStore.mkState
         (<[j := <["description" := VStr (PyStr.strip raw)]> d]> l) n []).
Proof.
  intros Hid Hd Hne Hlen Hfind.
  destruct (mem_update_description_step o (PyStr.strip raw) l n
              [MemStore.Fault e] d Hfind) as (j & Hj & Hupd).
  exists j. split; [done|].
  assert (find_one o (MemStore.mkState l n
                        [MemStore.Quiet; MemStore.Quiet; MemStore.Fault e])
          = (Ok (Some d),
             MemStore.mkState l n [MemStore.Quiet; MemStore.Fault e])) as Hf1.
  { cbn [find_one MemStore.mem_store]. unfold MemStore.mem_find_one, MemStore.arrive.
    cbn [MemStore.pending MemStore.docs MemStore.next_oid]. by rewrite Hfind. }
  by rewrite (put_reread data raw todo_id o _ _ _ (Some d) 1 Hid Hd Hne Hlen Hf1
                (found_not_falsy _ _ _ Hfind) Hupd).
Qed.

Lemma X11_update_is_not_rolled_back_witness :
  ∃ j : nat,
    [stored_todo "buy milk" Sample.now (OID 1)] !! j
    = Some (stored_todo "buy milk" Sample.now (OID 1))
    ∧ TodoDetailView.put (Sample.body_of (VStr "buy oat milk")) Sample.milk_id
        Scenario.milk_reread_down =
      (Ok (mkResponse (Failure connection_failed) HTTP_503_SERVICE_UNAVAILABLE),
       MemStore.mkState
         (<[j := <["description" := VStr "buy oat milk"]>
                   (stored_todo "buy milk" Sample.now (OID 1))]>
            [stored_todo "buy milk" Sample.now (OID 1)]) 2 []).
Proof.
  apply (X11_update_is_not_rolled_back
           [stored_todo "buy milk" Sample.now (OID 1)] 2 Scenario.timed_out
           (Sample.body_of (VStr "buy oat milk")) "buy oat milk"
           Sample.milk_id (OID 1)).
  - reflexivity.
  - reflexivity.
  - vm_compute. discriminate.
  - vm_compute. lia.
  - vm_compute. reflexivity.
Defined.

(** ** Outcomes on a quiet collection *)

Section quiet_facts.
Import MemStore.
Implicit Types (s : state) (l : list doc) (o : ObjectId) (d : doc).

Lemma remove_first_split o l d :
  List.find (has_id o) l = Some d →
  ∃ l1 l2, l = (l1 ++ d :: l2)%list
    ∧ Forall (λ d', doc_id d' ≠ Some o) l1
    ∧ remove_first o l = ((l1 ++ l2)%list, 1).
Proof.
  induction l as [|d0 l IH]; [done|]. cbn [List.find remove_first].
  destruct (has_id o d0) eqn:Ho.
  - intros [= ->]. by exists [], l.
  - intros Hf. destruct (IH Hf) as (l1 & l2 & -> & Hl1 & Hrm).
    exists (d0 :: l1), l2. rewrite Hrm. split_and!; [done| |done].
    constructor; [by apply has_id_false|done].
Qed.

Lemma remove_first_app_new o l d :
  List.find (has_id o) l = None → has_id o d = true →
  remove_first o (l ++ [d])%list = (l, 1).
Proof.
  induction l as [|d0 l IH]; cbn [List.find remove_first app]; intros Hl Hd.
  - by rewrite Hd.
  - destruct (has_id o d0); [done|]. by rewrite IH.
Qed.

Lemma update_first_find o (f : doc → doc) l d :
  (∀ d, doc_id (f d) = doc_id d) →
  List.find (has_id o) l = Some d →
  List.find (has_id o) (update_first o f l).1 = Some (f d).
Proof.
  intros Hf. induction l as [|d0 l IH]; [done|]. cbn [List.find update_first].
  destruct (has_id o d0) eqn:Ho.
  - intros [= ->]. cbn [fst List.find].
    assert (has_id o (f d) = true) as ->; [|done].
    apply has_id_true. rewrite Hf. by apply has_id_true.
  - intros Hfind. specialize (IH Hfind).
    destruct (update_first o f l) as [l' n]. cbn [fst List.find] in *.
    by rewrite Ho.
Qed.

Lemma update_first_idem o (f : doc → doc) l :
  (∀ d, doc_id (f d) = doc_id d) → (∀ d, f (f d) = f d) →
  (update_first o f (update_first o f l).1).1 = (update_first o f l).1.
Proof.
  intros Hid Hff. induction l as [|d0 l IH]; [done|]. cbn [update_first].
  destruct (has_id o d0) eqn:Ho.
  - cbn [fst update_first].
    assert (has_id o (f d0) = true) as ->.
    { apply has_id_true. rewrite Hid. by apply has_id_true. }
    cbn [fst]. by rewrite Hff.
  - destruct (update_first o f l) as [l' n]. cbn [fst update_first] in *.
    rewrite Ho. destruct (update_first o f l') as [l'' n'']. cbn [fst] in *.
    by rewrite IH.
Qed.

Lemma set_description_id x d :
  doc_id (<["description" := VStr x]> d) = doc_id d.
Proof. unfold doc_id. by rewrite lookup_insert_ne. Qed.

Lemma length_digits base w n : String.length (PyStr.digits base w n) = w.
Proof.
  revert n. induction w as [|w IH]; intros n; [done|]. cbn [PyStr.digits].
  assert (∀ a b : string,
            String.length (a ++ b) = (String.length a + String.length b)%nat)
    as Happ.
  { intros a b. induction a as [|c a IHa]; [done|].
    change (Datatypes.S (String.length (a ++ b))
            = Datatypes.S (String.length a + String.length b)).
    by rewrite IHa. }
  rewrite Happ, IH. cbn [String.length]. lia.
Qed.

Lemma digit_value_not_space c (x : N) :
  PyStr.digit_value c = Some x → PyStr.is_ascii_space c = false.
Proof. destruct c as [[] [] [] [] [] [] [] []]; by vm_compute. Qed.

(** On a string of hexadecimal digits in even number, [bytes.fromhex] reads
    the number the digits spell. *)
Lemma fromhex_take k acc count (t : string) v :
  take_digits_from 16 (2 * k) acc t = Some (v, EmptyString) →
  PyStr.fromhex_from acc count t = Some (v, (count + k)%nat).
Proof.
  revert acc count t.
  induction k as [|k IH]; intros acc count t.
  - cbn [Nat.mul take_digits_from]. intros [= -> ->].
    by rewrite Nat.add_0_r.
  - replace (2 * Datatypes.S k)%nat with (Datatypes.S (Datatypes.S (2 * k))) by lia.
    cbn [take_digits_from].
    destruct t as [|c t]; [done|].
    destruct (PyStr.digit_value c) as [top|] eqn:Htop; [|done].
    destruct (top <? 16); [|done].
    destruct t as [|c' t]; [done|].
    destruct (PyStr.digit_value c') as [bot|] eqn:Hbot; [|done].
    destruct (bot <? 16); [|done].
    intros Htake. cbn [PyStr.fromhex_from].
    rewrite (digit_value_not_space c top Htop), Htop, Hbot.
    replace (acc * 256 + (top * 16 + bot)) with ((acc * 16 + top) * 16 + bot)
      by lia.
    rewrite (IH _ (Datatypes.S count) t Htake). do 2 f_equal. lia.
Qed.

(** The string of a twelve-byte ObjectId is read back as that ObjectId. *)
Lemma ObjectId_new_str n :
  n < oid_modulus → ObjectId_new (ObjectId_str (OID n)) = Ok (OID n).
Proof.
  intros Hn. unfold ObjectId_new, ObjectId_str, OID. cbn [oid_int oid_size].
  change (2 * 12)%nat with 24%nat.
  change (256 ^ N.of_nat 12) with oid_modulus.
  rewrite N.mod_small by done.
  rewrite length_digits, Nat.eqb_refl. unfold PyStr.fromhex.
  pose proof (take_digits_digits 16 24 n "" ltac:(done) ltac:(done) Hn) as Htake.
  rewrite string_app_nil in Htake.
  by rewrite (fromhex_take 12 0 0 _ n Htake).
Qed.

Lemma delete_removed todo_id o s d :
  quiet s → ObjectId_new todo_id = Ok o →
  List.find (has_id o) (docs s) = Some d →
  TodoDetailView.delete todo_id s =
  (Ok (mkResponse (SuccessMessage "Todo deleted successfully") HTTP_200_OK),
   mkState (remove_first o (docs s)).1 (next_oid s) []).
Proof.
  intros Hq Hid Hfind.
  unfold TodoDetailView.delete, try_except, TodoDetailView.delete_try, bind.
  rewrite Hid, mem_find_one_quiet, Hfind, (found_not_falsy _ _ _ Hfind) by done.
  cbn [delete_one mem_store]. unfold mem_delete_one.
  rewrite arrive_quiet by done.
  destruct (remove_first_split o _ d Hfind) as (l1 & l2 & _ & _ & ->).
  cbn. by rewrite Hq.
Qed.

Lemma post_data_raises data e now s :
  data_get_description data = Raise e →
  TodoListView.post data now s =
  (Ok (mkResponse (Failure (unexpected_message (OpCreate data now)))
                  HTTP_500_INTERNAL_SERVER_ERROR), s).
Proof.
  intros Hd. unfold TodoListView.post, try_except, TodoListView.post_try,
    bind, lift. rewrite Hd. destruct data; [done|]. by injection Hd as <-.
Qed.

(** A [put] answered 200 on a quiet collection passed every check. *)
Lemma put_ok_checks data todo_id s s' (r : Response) :
  quiet s →
  TodoDetailView.put data todo_id s = (Ok r, s') → status r = HTTP_200_OK →
  ∃ o raw d,
    ObjectId_new todo_id = Ok o
    ∧ data_get_description data = Ok (VStr raw)
    ∧ PyStr.strip raw ≠ ""
    ∧ (String.length (PyStr.strip raw) ≤ MAX_DESCRIPTION_LENGTH)%nat
    ∧ List.find (has_id o) (docs s) = Some d.
Proof.
  intros Hq Hput Hst.
  destruct (put_ok_inv data todo_id s s' r Hq Hput Hst)
    as (o & raw & d & Hid & Hd & Hfind & _).
  exists o, raw, d. split_and!; try done.
  - intros Hempty.
    rewrite (put_description_required data raw todo_id o s Hid Hd Hempty) in Hput.
    injection Hput as <- <-. done.
  - apply Nat.nlt_ge. intros Hlong.
    rewrite (put_description_too_long data raw todo_id o s Hid Hd Hlong) in Hput.
    injection Hput as <- <-. done.
Qed.

End quiet_facts.

(** X5. [delete] with no fault and no other client has three outcomes and
    no other: an id that [ObjectId] rejects is answered 400 and a valid id
    that no document carries 404, both leaving the collection as it was; a
    valid id that a document carries is answered 200 and the collection then
    holds the same documents in the same order without the first one that
    carries the id. *)
Theorem X5_delete_outcomes (todo_id : string) (s : MemStore.state) :
  MemStore.quiet s →
  match ObjectId_new todo_id with
  | Raise _ =>
      TodoDetailView.delete todo_id s =
      (Ok (mkResponse (Failure "Invalid todo ID format.") HTTP_400_BAD_REQUEST), s)
  | Ok o =>
      match List.find (MemStore.has_id o) (MemStore.docs s) with
      | None =>
          TodoDetailView.delete todo_id s =
          (Ok (mkResponse (Failure "Todo not found.") HTTP_404_NOT_FOUND), s)
      | Some d =>
          ∃ before after : list doc,
            MemStore.docs s = (before ++ d :: after)%list
            ∧ Forall (λ d', MemStore.doc_id d' ≠ Some o) before
            ∧ TodoDetailView.delete todo_id s =
              (Ok (mkResponse (SuccessMessage "Todo deleted successfully")
                              HTTP_200_OK),
               MemStore.mkState (before ++ after)%list (MemStore.next_oid s) [])
      end
  end.
Proof.
  intros Hq. destruct (ObjectId_new todo_id) as [o|e] eqn:Hid.
  - destruct (List.find (MemStore.has_id o) (MemStore.docs s)) as [d|] eqn:Hfind.
    + destruct (remove_first_split o _ d Hfind) as (l1 & l2 & Hl & Hl1 & Hrm).
      exists l1, l2. split_and!; [done..|].
      rewrite (delete_removed todo_id o s d Hq Hid Hfind). by rewrite Hrm.
    + apply (delete_not_found todo_id o s None s Hid); [|done].
      rewrite mem_find_one_quiet by done. by rewrite Hfind.
  - unfold TodoDetailView.delete, try_except, TodoDetailView.delete_try.
    by rewrite Hid.
Qed.

Lemma X5_delete_outcomes_witness :
  ∃ before after : list doc,
    MemStore.docs Sample.milk_and_eggs
    = (before ++ stored_todo "buy milk" Sample.now (OID 1) :: after)%list
    ∧ Forall (λ d', MemStore.doc_id d' ≠ Some (OID 1)) before
    ∧ TodoDetailView.delete Sample.milk_id Sample.milk_and_eggs =
      (Ok (mkResponse (SuccessMessage "Todo deleted successfully") HTTP_200_OK),
       MemStore.mkState (before ++ after)%list 3 []).
Proof.
  exact (X5_delete_outcomes Sample.milk_id Sample.milk_and_eggs eq_refl).
Defined.

(** X6. [post] with no fault and no other client, on a well-formed
    collection: a body that is not a mapping or whose [description] is not a
    string is answered 500, an empty or over-long trimmed description 400,
    and in all these cases the collection is as it was; otherwise the answer
    is 201 and the collection is the old one followed by exactly one new
    document, under an id that no document carried. *)
Theorem X6_create_outcomes
    (data : request_data) (now : datetime) (s : MemStore.state) :
  MemStore.wf s → MemStore.quiet s →
  match data_get_description data with
  | Ok (VStr raw) =>
      if (String.length (PyStr.strip raw) =? 0)%nat then
        TodoListView.post data now s =
        (Ok (mkResponse (Failure description_required) HTTP_400_BAD_REQUEST), s)
      else if (MAX_DESCRIPTION_LENGTH <? String.length (PyStr.strip raw))%nat then
        TodoListView.post data now s =
        (Ok (mkResponse (Failure description_too_long) HTTP_400_BAD_REQUEST), s)
      else
        ∃ repr : doc,
          TodoListView.post data now s =
          (Ok (mkResponse (SuccessItem (Some repr) "Todo created successfully")
                          HTTP_201_CREATED),
           MemStore.mkState
             (MemStore.docs s
                ++ [stored_todo (PyStr.strip raw) now (OID (MemStore.next_oid s))])%list
             (MemStore.next_oid s + 1) [])
          ∧ Forall (λ d, MemStore.doc_id d ≠ Some (OID (MemStore.next_oid s)))
                   (MemStore.docs s)
  | _ =>
      TodoListView.post data now s =
      (Ok (mkResponse
             (Failure "An unexpected error occurred while creating the todo.")
             HTTP_500_INTERNAL_SERVER_ERROR), s)
  end.
Proof.
  intros Hwf Hq.
  destruct (data_get_description data) as [v|e] eqn:Hd.
  2:{ by rewrite (post_data_raises data e now s Hd). }
  destruct v as [| | |raw| |];
    try (by rewrite (post_not_a_string data _ now s Hd)).
  destruct (String.length (PyStr.strip raw) =? 0)%nat eqn:H0.
  { apply length_zero_empty in H0. by eapply post_description_required. }
  destruct (MAX_DESCRIPTION_LENGTH <? String.length (PyStr.strip raw))%nat eqn:Hl.
  { apply Nat.ltb_lt in Hl. by eapply post_description_too_long. }
  assert (PyStr.strip raw ≠ "") as Hne.
  { intros Heq. rewrite Heq in H0. done. }
  apply Nat.ltb_ge in Hl.
  rewrite (post_created data raw now s Hwf Hq Hd Hne Hl).
  destruct (format_todo_fields
              (stored_todo (PyStr.strip raw) now (OID (MemStore.next_oid s))))
    as (repr & -> & _).
  { apply insert_non_empty. }
  exists repr. split; [done|].
  apply find_none_iff, find_fresh. by destruct Hwf.
Qed.

Lemma X6_create_outcomes_witness :
  ∃ repr : doc,
    TodoListView.post (Sample.body_of (VStr " buy eggs ")) Sample.now Sample.milk =
    (Ok (mkResponse (SuccessItem (Some repr) "Todo created successfully")
                    HTTP_201_CREATED),
     MemStore.mkState
       (MemStore.docs Sample.milk ++ [stored_todo "buy eggs" Sample.now (OID 2)])%list
       3 [])
    ∧ Forall (λ d, MemStore.doc_id d ≠ Some (OID 2)) (MemStore.docs Sample.milk).
Proof.
  apply (X6_create_outcomes (Sample.body_of (VStr " buy eggs ")) Sample.now
           Sample.milk).
  - split; [|apply NoDup_singleton]. apply Forall_singleton. vm_compute. reflexivity.
  - reflexivity.
Defined.

Section after_create.
Import MemStore.

Lemma wf_all_have_id (s : state) :
  wf s → Forall (λ d : doc, is_Some (d !! "_id")) (docs s).
Proof.
  intros [Hb _]. eapply Forall_impl; [exact Hb|]. intros d Hd.
  unfold id_below in Hd. destruct (doc_id d) as [o|] eqn:Ho; [|done].
  apply doc_id_is_Some in Ho. eauto.
Qed.

End after_create.

(** X7. A todo that was just created is listed: on a well-formed, quiet
    collection, after a [post] with an acceptable description, [get] answers
    200 with one more item than there were documents, and the representation
    that [post] returned is among the items. *)
Theorem X7_created_todo_is_listed
    (data : request_data) (raw : string) (now : datetime) (s : MemStore.state) :
  MemStore.wf s → MemStore.quiet s →
  data_get_description data = Ok (VStr raw) →
  PyStr.strip raw ≠ "" →
  (String.length (PyStr.strip raw) ≤ 500)%nat →
  ∃ (repr : doc) (s1 : MemStore.state) (todos : list doc),
    TodoListView.post data now s =
    (Ok (mkResponse (SuccessItem (Some repr) "Todo created successfully")
                    HTTP_201_CREATED), s1)
    ∧ TodoListView.get s1 =
      (Ok (mkResponse (SuccessList todos (length todos)) HTTP_200_OK), s1)
    ∧ repr ∈ todos
    ∧ length todos = Datatypes.S (length (MemStore.docs s)).
Proof.
  intros Hwf Hq Hd Hne Hlen.
  rewrite (post_created data raw now s Hwf Hq Hd Hne Hlen).
  set (stored := stored_todo _ _ _).
  set (s1 := MemStore.mkState _ _ _).
  destruct (format_todo_fields stored) as (repr & Hrepr & _).
  { apply insert_non_empty. }
  set (ordered := merge_sort (MemStore.sort_order "created_at" (-1))
                             (MemStore.docs s1)).
  assert (ordered ≡ₚ MemStore.docs s1) as Hperm by apply merge_sort_Permutation.
  destruct (get_ok s1 ordered s1) as (todos & Hget & Hfmt).
  { by apply mem_find_sort_quiet. }
  { rewrite Hperm. subst s1. cbn [MemStore.docs]. apply Forall_app. split.
    - by apply wf_all_have_id.
    - apply Forall_singleton. exists (VObjectId (OID (MemStore.next_oid s))).
      apply lookup_insert_eq. }
  exists repr, s1, todos. rewrite Hrepr. split_and!; [done..| |].
  - assert (stored ∈ ordered) as Hin.
    { rewrite Hperm. subst s1. cbn [MemStore.docs]. apply elem_of_app. right.
      by apply list_elem_of_singleton. }
    apply (list_elem_of_fmap_2 (λ t, TodoListView._format_todo (Some t))) in Hin.
    cbn beta in Hin. rewrite Hrepr, <-Hfmt in Hin.
    by apply (list_elem_of_fmap_inj_2 Some) in Hin.
  - rewrite <-(length_fmap Some todos), Hfmt, length_fmap, Hperm.
    subst s1. cbn [MemStore.docs]. rewrite List.length_app.
    cbn [length]. lia.
Qed.

Lemma X7_created_todo_is_listed_witness :
  ∃ (repr : doc) (s1 : MemStore.state) (todos : list doc),
    TodoListView.post (Sample.body_of (VStr " buy eggs ")) Sample.now Sample.milk =
    (Ok (mkResponse (SuccessItem (Some repr) "Todo created successfully")
                    HTTP_201_CREATED), s1)
    ∧ TodoListView.get s1 =
      (Ok (mkResponse (SuccessList todos (length todos)) HTTP_200_OK), s1)
    ∧ repr ∈ todos
    ∧ length todos = 2%nat.
Proof.
  apply (X7_created_todo_is_listed (Sample.body_of (VStr " buy eggs "))
           " buy eggs " Sample.now Sample.milk).
  - split; [|apply NoDup_singleton]. apply Forall_singleton. vm_compute. reflexivity.
  - reflexivity.
  - reflexivity.
  - vm_compute. discriminate.
  - vm_compute. lia.
Defined.

(** X8. The [_id] that create returns names the created todo: on a
    well-formed, quiet collection whose id generator is within the 96 bits
    of an ObjectId, [delete] with the [_id] string of the representation
    [post] returned is answered 200 and leaves exactly the documents there
    were before the create. *)
Theorem X8_create_then_delete
    (data : request_data) (raw : string) (now : datetime) (s : MemStore.state) :
  MemStore.wf s → MemStore.quiet s →
  MemStore.next_oid s < oid_modulus →
  data_get_description data = Ok (VStr raw) →
  PyStr.strip raw ≠ "" →
  (String.length (PyStr.strip raw) ≤ 500)%nat →
  ∃ (repr : doc) (s1 : MemStore.state) (id : string),
    TodoListView.post data now s =
    (Ok (mkResponse (SuccessItem (Some repr) "Todo created successfully")
                    HTTP_201_CREATED), s1)
    ∧ repr !! "_id" = Some (VStr id)
    ∧ TodoDetailView.delete id s1 =
      (Ok (mkResponse (SuccessMessage "Todo deleted successfully") HTTP_200_OK),
       MemStore.mkState (MemStore.docs s) (MemStore.next_oid s + 1) []).
Proof.
  intros Hwf Hq Hbound Hd Hne Hlen.
  rewrite (post_created data raw now s Hwf Hq Hd Hne Hlen).
  set (o := OID (MemStore.next_oid s)).
  set (stored := stored_todo _ _ _).
  destruct (format_todo_fields stored) as (repr & Hrepr & Rid & _).
  { apply insert_non_empty. }
  destruct (stored_todo_lookup (PyStr.strip raw) now o) as (Sid & _).
  fold stored in Sid. rewrite Sid in Rid.
  cbn [fmap option_fmap option_map py_str] in Rid.
  exists repr, (MemStore.mkState (MemStore.docs s ++ [stored])
                                 (MemStore.next_oid s + 1) []),
         (ObjectId_str o).
  rewrite Hrepr. split_and!; [done..|].
  pose proof (find_fresh _ _ (proj1 Hwf)) as Hfresh. fold o in Hfresh.
  rewrite (delete_removed (ObjectId_str o) o _ stored).
  - cbn [MemStore.docs MemStore.next_oid].
    by rewrite (remove_first_app_new o _ stored Hfresh (stored_todo_has_id _ _ _)).
  - reflexivity.
  - by apply ObjectId_new_str.
  - cbn [MemStore.docs]. apply find_app_new; [done|]. apply stored_todo_has_id.
Qed.

Lemma X8_create_then_delete_witness :
  ∃ (repr : doc) (s1 : MemStore.state) (id : string),
    TodoListView.post (Sample.body_of (VStr " buy eggs ")) Sample.now Sample.milk =
    (Ok (mkResponse (SuccessItem (Some repr) "Todo created successfully")
                    HTTP_201_CREATED), s1)
    ∧ repr !! "_id" = Some (VStr id)
    ∧ TodoDetailView.delete id s1 =
      (Ok (mkResponse (SuccessMessage "Todo deleted successfully") HTTP_200_OK),
       MemStore.mkState (MemStore.docs Sample.milk) 3 []).
Proof.
  apply (X8_create_then_delete (Sample.body_of (VStr " buy eggs "))
           " buy eggs " Sample.now Sample.milk).
  - split; [|apply NoDup_singleton]. apply Forall_singleton. vm_compute. reflexivity.
  - reflexivity.
  - reflexivity.
  - reflexivity.
  - vm_compute. discriminate.
  - vm_compute. lia.
Defined.

(** X9. Sending the same update twice changes nothing the second time: on
    a quiet collection, if a [put] is answered 200, the same [put] on the
    resulting collection gives the same answer and leaves that collection
    as it is. *)
Theorem X9_update_twice
    (data : request_data) (todo_id : string) (s s1 : MemStore.state)
    (r : Response) :
  MemStore.quiet s →
  TodoDetailView.put data todo_id s = (Ok r, s1) → status r = HTTP_200_OK →
  TodoDetailView.put data todo_id s1 = (Ok r, s1).
Proof.
  intros Hq Hput Hst.
  destruct (put_ok_checks data todo_id s s1 r Hq Hput Hst)
    as (o & raw & d & Hid & Hd & Hne & Hlen & Hfind).
  rewrite (put_updated data raw todo_id o s d Hq Hid Hd Hne Hlen Hfind) in Hput.
  injection Hput as <- <-.
  set (f := λ d0 : doc, <["description" := VStr (PyStr.strip raw)]> d0).
  assert (∀ d0, MemStore.doc_id (f d0) = MemStore.doc_id d0) as Hfid.
  { intros d0. apply set_description_id. }
  assert (∀ d0, f (f d0) = f d0) as Hff.
  { intros d0. apply insert_insert_eq. }
  pose proof (update_first_find o f _ d Hfid Hfind) as Hfind1.
  set (s1 := MemStore.mkState _ _ _).
  rewrite (put_updated data raw todo_id o s1 (f d) eq_refl Hid Hd Hne Hlen Hfind1).
  subst s1. cbn [MemStore.docs MemStore.next_oid].
  fold f. by rewrite (update_first_idem o f _ Hfid Hff).
Qed.

Lemma X9_update_twice_witness :
  TodoDetailView.put (Sample.body_of (VStr "buy oat milk")) Sample.milk_id
    (TodoDetailView.put (Sample.body_of (VStr "buy oat milk")) Sample.milk_id
       Sample.milk).2 =
  TodoDetailView.put (Sample.body_of (VStr "buy oat milk")) Sample.milk_id
    Sample.milk.
Proof.
  destruct (TodoDetailView.put (Sample.body_of (VStr "buy oat milk"))
              Sample.milk_id Sample.milk) as [[r|e] s1] eqn:Hput;
    [|by vm_compute in Hput].
  apply (X9_update_twice (Sample.body_of (VStr "buy oat milk")) Sample.milk_id
           Sample.milk s1 r).
  - reflexivity.
  - exact Hput.
  - vm_compute in Hput. by injection Hput as <- _.
Defined.

(** X12. What a successful update answers: on a quiet collection, for an id
    that a document carries and an acceptable description, [put] answers 200
    with a representation whose [description] is the trimmed text, whose
    [_id] is [str] of the id, whose [created_at] is the stored
    one (as ISO-8601 text when it is a datetime), and whose other fields are
    those of the stored document. *)
Theorem X12_update_answer
    (data : request_data) (raw : string) (todo_id : string) (o : ObjectId)
    (s : MemStore.state) (d : doc) :
  MemStore.quiet s →
  ObjectId_new todo_id = Ok o →
  data_get_description data = Ok (VStr raw) →
  PyStr.strip raw ≠ "" →
  (String.length (PyStr.strip raw) ≤ 500)%nat →
  List.find (MemStore.has_id o) (MemStore.docs s) = Some d →
  ∃ (repr : doc) (s' : MemStore.state),
    TodoDetailView.put data todo_id s =
    (Ok (mkResponse (SuccessItem (Some repr) "Todo updated successfully")
                    HTTP_200_OK), s')
    ∧ repr !! "description" = Some (VStr (PyStr.strip raw))
    ∧ repr !! "_id" = Some (VStr (ObjectId_str o))
    ∧ repr !! "created_at" =
        (λ v, match v with VDatetime t => VStr (isoformat t) | _ => v end)
          <$> d !! "created_at"
    ∧ ∀ k, k ≠ "_id" → k ≠ "created_at" → k ≠ "description" →
           repr !! k = d !! k.
Proof.
  intros Hq Hid Hd Hne Hlen Hfind.
  rewrite (put_updated data raw todo_id o s d Hq Hid Hd Hne Hlen Hfind).
  set (f := λ d0 : doc, <["description" := VStr (PyStr.strip raw)]> d0).
  rewrite (update_first_find o f _ d (set_description_id _) Hfind).
  rewrite detail_format_todo.
  destruct (format_todo_fields (f d)) as (repr & -> & Rid & Rcreated & Rother).
  { apply insert_non_empty. }
  destruct (find_Some_has_id _ _ _ Hfind) as [Hdid%doc_id_is_Some _].
  eexists repr, _. split; [reflexivity|]. subst f. cbn beta in *.
  rewrite lookup_insert_ne in Rid, Rcreated by done. rewrite Hdid in Rid.
  split_and!; [|done|done|].
  - rewrite Rother by done. apply lookup_insert_eq.
  - intros k ? ? ?. rewrite Rother by done. by apply lookup_insert_ne.
Qed.

Lemma X12_update_answer_witness :
  ∃ (repr : doc) (s' : MemStore.state),
    TodoDetailView.put (Sample.body_of (VStr " buy oat milk ")) Sample.milk_id
      Sample.milk =
    (Ok (mkResponse (SuccessItem (Some repr) "Todo updated successfully")
                    HTTP_200_OK), s')
    ∧ repr !! "description" = Some (VStr "buy oat milk")
    ∧ repr !! "_id" = Some (VStr "000000000000000000000001")
    ∧ repr !! "created_at" =
        (λ v, match v with VDatetime t => VStr (isoformat t) | _ => v end)
          <$> stored_todo "buy milk" Sample.now (OID 1) !! "created_at"
    ∧ ∀ k, k ≠ "_id" → k ≠ "created_at" → k ≠ "description" →
           repr !! k = stored_todo "buy milk" Sample.now (OID 1) !! k.
Proof.
  apply (X12_update_answer (Sample.body_of (VStr " buy oat milk "))
           " buy oat milk " Sample.milk_id (OID 1) Sample.milk).
  - reflexivity.
  - reflexivity.
  - reflexivity.
  - vm_compute. discriminate.
  - vm_compute. lia.
  - vm_compute. reflexivity.
Defined.



(** ** Ids written with whitespace *)

(** [ObjectId] takes any string of twenty-four characters that
    [bytes.fromhex] accepts, so whitespace between bytes is let through and
    the id then has fewer than twelve bytes; whitespace inside a byte, a
    character that is not a hexadecimal digit, or another length is
    [InvalidId]. *)
Example ObjectId_new_examples :
  ObjectId_new "000000000000000000000001" = Ok (OID 1)
  ∧ ObjectId_new "0000000000000000000000AB" = Ok (OID 171)
  ∧ ObjectId_new "0000 0000 0000 0000 0001" = Ok (mkObjectId 1 10)
  ∧ (∃ e, ObjectId_new "0 0000000000000000000000" = Raise e)
  ∧ (∃ e, ObjectId_new "00000000000000000000000g" = Raise e)
  ∧ (∃ e, ObjectId_new "0001" = Raise e).
Proof. split_and!; try reflexivity; eexists; reflexivity. Qed.

(** With such an id the views go on to the store: no todo carries it, so
    [put] and [delete] answer 404, and 503 when the connection fails. *)
Example whitespace_id_reaches_the_store :
  TodoDetailView.put (Sample.body_of (VStr "buy oat milk"))
    "0000 0000 0000 0000 0001" Sample.milk =
    (Ok (mkResponse (Failure "Todo not found.") HTTP_404_NOT_FOUND), Sample.milk)
  ∧ TodoDetailView.delete "0000 0000 0000 0000 0001" Sample.milk =
    (Ok (mkResponse (Failure "Todo not found.") HTTP_404_NOT_FOUND), Sample.milk)
  ∧ TodoDetailView.delete "0000 0000 0000 0000 0001" Sample.milk_down =
    (Ok (mkResponse (Failure connection_failed) HTTP_503_SERVICE_UNAVAILABLE),
     Sample.milk).
Proof. split_and!; vm_compute; reflexivity. Qed.
